(** * The projection engine of the investment calculator ([buildRows])

    A shallow embedding of [buildRows] and [round2] from [script.js] (the
    section "math & helpers"; the older copy of the script holds the same
    two functions).

    JavaScript numbers are IEEE 754 binary64 values, and so are Rocq's
    primitive floats: [+], [-], [*], [/] and [<] below are the same
    operations the engine executes.  The built-ins the engine calls
    ([Number], [Number.isFinite], [Math.floor], [Math.round],
    [Number.EPSILON]) are written out after ECMA-262. *)

From Stdlib Require Import ZArith List String Ascii Bool Lia.
From Stdlib Require Import Floats Uint63.
Import ListNotations.

Set Warnings "-inexact-float".

Local Open Scope float_scope.

(** ** JavaScript values *)

(** The values a parameter field can hold.  The engine's input domain is a
    record of form inputs: each field is a number, a string, [null] or
    [undefined] (an absent field reads as [undefined]); booleans are kept
    because [Number] is defined on them in one line.  Objects, symbols and
    BigInts, on which [Number] runs user code or throws, are not part of it.
    A string is the sequence of its code units, taken in the range of
    [ascii] (U+0000 to U+00FF). *)
Inductive value : Type :=
| JUndefined
| JNull
| JBool (b : bool)
| JNum (x : float)
| JStr (s : string).

(** ** Built-ins *)

Module Js.

(** [Number.EPSILON], 2^-52. *)
Definition EPSILON : float := Eval compute in Z.ldexp 1 (-52).

(** The double of an integer of absolute value below 2^63 (exact below
    2^53, which is all the engine asks for). *)
Definition of_int (n : Z) : float :=
  match n with
  | Z0 => 0
  | Zpos _ => of_uint63 (Uint63.of_Z n)
  | Zneg _ => - of_uint63 (Uint63.of_Z (- n))
  end.

(** The signed mantissa of a finite double [m * 2^e]. *)
Definition signed (s : bool) (m : positive) : Z :=
  if s then Zneg m else Zpos m.

(** [Math.floor]: the largest integer not above [x]; NaN, infinities,
    zeros and integral values are returned as they are. *)
Definition floor (x : float) : float :=
  match Prim2SF x with
  | S754_finite s m e =>
      if (0 <=? e)%Z then x else of_int (Z.shiftl (signed s m) e)
  | _ => x
  end.

(** [Math.max] and [Math.min] of two numbers: NaN if either is NaN, and
    +0 counts as larger than -0. *)
Definition max (a b : float) : float :=
  if is_nan a || is_nan b then nan
  else if Leibniz.eqb a neg_zero && Leibniz.eqb b zero then b
  else if a <? b then b else a.

Definition min (a b : float) : float :=
  if is_nan a || is_nan b then nan
  else if Leibniz.eqb a zero && Leibniz.eqb b neg_zero then b
  else if b <? a then b else a.

(** [Math.round]: the integer nearest to [x], ties towards +infinity, that
    is floor(x + 1/2) computed exactly; NaN, infinities, zeros and integral
    values are returned as they are, and a result of zero keeps the sign
    of [x]. *)
Definition round (x : float) : float :=
  match Prim2SF x with
  | S754_finite s m e =>
      if (0 <=? e)%Z then x
      else
        let half := Z.shiftl 1 (- e - 1) in
        let n := Z.shiftl (signed s m + half) e in
        if (n =? 0)%Z then (if s then neg_zero else zero) else of_int n
  | _ => x
  end.

(** [Number.isFinite] on a number. *)
Definition isFinite (x : float) : bool := is_finite x.

(** *** [Number] applied to a string (StringToNumber) *)

Definition isWhiteSpace (c : ascii) : bool :=
  let n := N_of_ascii c in
  ((9 <=? n) && (n <=? 13) || (n =? 32) || (n =? 160))%N.

Fixpoint dropWhile (f : ascii -> bool) (l : list ascii) : list ascii :=
  match l with
  | c :: l' => if f c then dropWhile f l' else l
  | [] => []
  end.

Definition trim (l : list ascii) : list ascii :=
  rev (dropWhile isWhiteSpace (rev (dropWhile isWhiteSpace l))).

Definition digitOf (radix : Z) (c : ascii) : option Z :=
  let n := Z.of_N (N_of_ascii c) in
  let d := (if (48 <=? n) && (n <=? 57) then n - 48
            else if (97 <=? n) && (n <=? 102) then n - 87
            else if (65 <=? n) && (n <=? 70) then n - 55
            else 99)%Z in
  if (d <? radix)%Z then Some d else None.

(** Reads a run of digits: the value accumulated, the number of digits
    read, and what follows. *)
Fixpoint digits (radix acc cnt : Z) (l : list ascii) : Z * Z * list ascii :=
  match l with
  | c :: l' =>
      match digitOf radix c with
      | Some d => digits radix (radix * acc + d) (cnt + 1) l'
      | None => (acc, cnt, l)
      end
  | [] => (acc, cnt, [])
  end%Z.

(** The double nearest to [d * 10^e] (ties to even), for [d >= 0] written
    with [cnt] digits.  Beyond the range of doubles the result is known
    without computing the power. *)
Definition ofDecimal (d cnt e : Z) : float :=
  if (d =? 0)%Z then 0
  else if (400 <? e)%Z then infinity
  else if (cnt + e <? -400)%Z then 0
  else if (0 <=? e)%Z then SF2Prim (binary_normalize prec emax (d * 10 ^ e) 0 false)
  else SF2Prim (SFdiv prec emax (S754_finite false (Z.to_pos d) 0)
                                (S754_finite false (Z.to_pos (10 ^ (- e))) 0)).

(** ExponentPart (optional), then the end of the literal. *)
Definition exponent (l : list ascii) : option Z :=
  match l with
  | [] => Some 0%Z
  | c :: l' =>
      if (Ascii.eqb c "e" || Ascii.eqb c "E")%char then
        let '(neg, l'') :=
          match l' with
          | "+"%char :: r => (false, r)
          | "-"%char :: r => (true, r)
          | _ => (false, l')
          end in
        match digits 10 0 0 l'' with
        | (x, cnt, []) =>
            if (0 <? cnt)%Z then Some (if neg then (- x)%Z else x) else None
        | _ => None
        end
      else None
  end.

(** StrUnsignedDecimalLiteral. *)
Definition unsignedDecimal (l : list ascii) : float :=
  if list_eq_dec ascii_dec l (list_ascii_of_string "Infinity") then infinity
  else
    let '(ip, ni, r1) := digits 10 0 0 l in
    let '(d, nf, r2) :=
      match r1 with
      | "."%char :: r => digits 10 ip 0 r
      | _ => (ip, 0%Z, r1)
      end in
    if (ni + nf =? 0)%Z then nan
    else
      match exponent r2 with
      | Some x => ofDecimal d (ni + nf) (x - nf)
      | None => nan
      end.

(** NonDecimalIntegerLiteral: the digits after [0x], [0o] or [0b]. *)
Definition nonDecimal (radix : Z) (l : list ascii) : float :=
  match digits radix 0 0 l with
  | (n, cnt, []) =>
      if (0 <? cnt)%Z then SF2Prim (binary_normalize prec emax n 0 false) else nan
  | _ => nan
  end.

Definition StringToNumber (s : string) : float :=
  match trim (list_ascii_of_string s) with
  | [] => 0
  | "+"%char :: l => unsignedDecimal l
  | "-"%char :: l => - unsignedDecimal l
  | "0"%char :: c :: l =>
      if (Ascii.eqb c "x" || Ascii.eqb c "X")%char then nonDecimal 16 l
      else if (Ascii.eqb c "o" || Ascii.eqb c "O")%char then nonDecimal 8 l
      else if (Ascii.eqb c "b" || Ascii.eqb c "B")%char then nonDecimal 2 l
      else unsignedDecimal ("0"%char :: c :: l)
  | l => unsignedDecimal l
  end.

(** [Number(v)]. *)
Definition Number (v : value) : float :=
  match v with
  | JUndefined => nan
  | JNull => 0
  | JBool b => if b then 1 else 0
  | JNum x => x
  | JStr s => StringToNumber s
  end.

End Js.

(** ** The engine's data *)

(** The parameter record [p] handed to [buildRows]; an absent field is
    [JUndefined]. *)
Module Params.
Record t : Type := mk {
  startingCapital : value;
  incomeMonthly : value;
  expensesMonthly : value;
  incomeGrowthPct : value;
  returnPct : value;
  inflationPct : value;
  years : value;
  contributionInterestFactor : value
}.

(** The empty record [{}]. *)
Definition empty : t :=
  mk JUndefined JUndefined JUndefined JUndefined
     JUndefined JUndefined JUndefined JUndefined.
End Params.

(** One pushed row. *)
Module YearRow.
Record t : Type := mk {
  year : float;
  incomeMonthly : float;
  expensesMonthly : float;
  deltaMonthly : float;
  contribution : float;
  capitalStart : float;
  interestOnStart : float;
  interestOnContribution : float;
  capitalEnd : float
}.
End YearRow.

(** The three [let] variables the loop updates. *)
Record locals : Type := mkLocals {
  capitalStart : float;
  incomeMonthly : float;
  expensesMonthly : float
}.

(** The [const]s computed before the loop. *)
Record consts : Type := mkConsts {
  gIncome : float;
  r : float;
  infl : float;
  years : float;
  k : float
}.

(** ** [round2] and [buildRows] *)

Definition round2 (x : float) : float :=
  Js.round ((x + Js.EPSILON) * 100) / 100.

Definition toFinite (v : value) (fb : float) : float :=
  let n := Js.Number v in
  if Js.isFinite n then n else fb.

Definition toPct (v : value) : float := toFinite v 0 / 100.

(** [v == null || v === ""]. *)
Definition nullish_or_empty (v : value) : bool :=
  match v with
  | JUndefined | JNull => true
  | JStr EmptyString => true
  | _ => false
  end.

(** The initial values of the [let] variables. *)
Definition init (p : Params.t) : locals :=
  {| capitalStart := toFinite (Params.startingCapital p) 0;
     incomeMonthly := toFinite (Params.incomeMonthly p) 0;
     expensesMonthly := toFinite (Params.expensesMonthly p) 0 |}.

(** The constants. *)
Definition constants (p : Params.t) : consts :=
  {| gIncome := toPct (Params.incomeGrowthPct p);
     r := toPct (Params.returnPct p);
     infl := toPct (Params.inflationPct p);
     years := Js.max 1 (Js.min 60 (Js.floor (toFinite (Params.years p) 1)));
     k := if nullish_or_empty (Params.contributionInterestFactor p) then 1
          else toFinite (Params.contributionInterestFactor p) 0 |}.

(** The body of the loop, in the order of the source: the values computed
    from the running variables ... *)
Definition deltaMonthly (st : locals) : float :=
  incomeMonthly st - expensesMonthly st.

Definition contribution (st : locals) : float :=
  deltaMonthly st * 12.

Definition interestOnStart (c : consts) (st : locals) : float :=
  capitalStart st * r c.

Definition interestOnContribution (c : consts) (st : locals) : float :=
  contribution st * r c * k c.

(** [capitalEnd] before the floor. *)
Definition capitalEndRaw (c : consts) (st : locals) : float :=
  capitalStart st + contribution st + interestOnStart c st
  + interestOnContribution c st.

(** [if (capitalEnd < 0) capitalEnd = 0]. *)
Definition capitalEnd (c : consts) (st : locals) : float :=
  let capitalEnd := capitalEndRaw c st in
  if capitalEnd <? 0 then 0 else capitalEnd.

(** ... the row pushed ... *)
Definition row (c : consts) (y : float) (st : locals) : YearRow.t :=
  {| YearRow.year := y;
     YearRow.incomeMonthly := round2 (incomeMonthly st);
     YearRow.expensesMonthly := round2 (expensesMonthly st);
     YearRow.deltaMonthly := round2 (deltaMonthly st);
     YearRow.contribution := round2 (contribution st);
     YearRow.capitalStart := round2 (capitalStart st);
     YearRow.interestOnStart := round2 (interestOnStart c st);
     YearRow.interestOnContribution := round2 (interestOnContribution c st);
     YearRow.capitalEnd := round2 (capitalEnd c st) |}.

(** ... and the three assignments that end the body. *)
Definition advance (c : consts) (st : locals) : locals :=
  {| capitalStart := capitalEnd c st;
     incomeMonthly := incomeMonthly st * (1 + gIncome c);
     expensesMonthly := expensesMonthly st * (1 + infl c) |}.

(** [for (let y = 1; y <= years; y++) { ... rows.push(...) ... }]: [fuel]
    bounds the number of iterations.  [buildRows] gives it 60, and the loop
    always ends on its own condition before that runs out
    ([for_loop_fuel]). *)
Fixpoint for_loop (fuel : nat) (c : consts) (y : float) (st : locals)
    (rows : list YearRow.t) : list YearRow.t :=
  match fuel with
  | O => rows
  | S fuel' =>
      if y <=? years c
      then for_loop fuel' c (y + 1) (advance c st) (rows ++ [row c y st])
      else rows
  end.

Definition buildRows (p : Params.t) : list YearRow.t :=
  for_loop 60 (constants p) 1 (init p) [].

(** ** Notions the statements use *)

(** The running variables at the start of iteration [i] (counted from 0). *)
Fixpoint state_at (c : consts) (st : locals) (i : nat) : locals :=
  match i with
  | O => st
  | S i' => advance c (state_at c st i')
  end.

Definition running (p : Params.t) (i : nat) : locals :=
  state_at (constants p) (init p) i.

(** A parameter record with numbers in the first seven fields. *)
Definition params (sc inc ex g ret inf : float) (yrs : float) (kf : value)
  : Params.t :=
  Params.mk (JNum sc) (JNum inc) (JNum ex) (JNum g) (JNum ret) (JNum inf)
            (JNum yrs) kf.

(** The floor of a finite double [m * 2^e], as an integer. *)
Definition integer_floor (x : float) : Z :=
  match Prim2SF x with
  | S754_finite s m e => Z.shiftl (Js.signed s m) e
  | _ => 0%Z
  end.

Definition clamp (n lo hi : Z) : Z := Z.max lo (Z.min hi n).

(** The number of years asked for, after coercion: what the spec calls
    clamp(floor(toFinite(years, 1)), 1, 60). *)
Definition horizon (p : Params.t) : Z :=
  clamp (integer_floor (toFinite (Params.years p) 1)) 1 60.

Definition iterations (p : Params.t) : nat := Z.to_nat (horizon p).

(** [x < 0], and its negation: [x] is NaN, a zero, or positive. *)
Definition negative (x : float) : bool := x <? 0.

(** The eight numeric fields of a row. *)
Definition numeric_fields (w : YearRow.t) : list float :=
  [ YearRow.incomeMonthly w; YearRow.expensesMonthly w;
    YearRow.deltaMonthly w; YearRow.contribution w;
    YearRow.capitalStart w; YearRow.interestOnStart w;
    YearRow.interestOnContribution w; YearRow.capitalEnd w ].

(** The eight quantities of a year before rounding, in the order of
    [numeric_fields]. *)
Definition quantities (c : consts) (st : locals) : list float :=
  [ incomeMonthly st; expensesMonthly st; deltaMonthly st; contribution st;
    capitalStart st; interestOnStart c st; interestOnContribution c st;
    capitalEnd c st ].

(** The rows pushed by [n] iterations that start at year [j] in state [st]. *)
Fixpoint emitted (c : consts) (j : nat) (st : locals) (n : nat)
  : list YearRow.t :=
  match n with
  | O => []
  | S n' => row c (Js.of_int (Z.of_nat j)) st :: emitted c (S j) (advance c st) n'
  end.

(** A field that is absent, [null], [undefined], NaN or a blank string. *)
Definition malformed (v : value) : bool :=
  match v with
  | JUndefined | JNull => true
  | JBool _ => false
  | JNum x => is_nan x
  | JStr s => forallb Js.isWhiteSpace (list_ascii_of_string s)
  end.

Definition all_malformed (p : Params.t) : bool :=
  malformed (Params.startingCapital p) && malformed (Params.incomeMonthly p)
  && malformed (Params.expensesMonthly p) && malformed (Params.incomeGrowthPct p)
  && malformed (Params.returnPct p) && malformed (Params.inflationPct p)
  && malformed (Params.years p) && malformed (Params.contributionInterestFactor p).

(** The record [p] with its [contributionInterestFactor] replaced. *)
Definition with_factor (p : Params.t) (v : value) : Params.t :=
  Params.mk (Params.startingCapital p) (Params.incomeMonthly p)
            (Params.expensesMonthly p) (Params.incomeGrowthPct p)
            (Params.returnPct p) (Params.inflationPct p) (Params.years p) v.

(** Every numeric field of every row is a finite number. *)
Definition all_finite (rows : list YearRow.t) : bool :=
  forallb (fun w => forallb Js.isFinite (numeric_fields w)) rows.

(** The row of year 1 with every amount 0. *)
Definition zero_row : YearRow.t := YearRow.mk 1 0 0 0 0 0 0 0 0.

(** The spec's step 8 in its own words, "capitalStart := capitalEnd
    (rounded value, not raw)", and the rows it would give. *)
Definition advance_rounded (c : consts) (st : locals) : locals :=
  {| capitalStart := round2 (capitalEnd c st);
     incomeMonthly := incomeMonthly st * (1 + gIncome c);
     expensesMonthly := expensesMonthly st * (1 + infl c) |}.

Fixpoint emitted_rounded (c : consts) (j : nat) (st : locals) (n : nat)
  : list YearRow.t :=
  match n with
  | O => []
  | S n' =>
      row c (Js.of_int (Z.of_nat j)) st
      :: emitted_rounded c (S j) (advance_rounded c st) n'
  end.

Definition buildRows_rounded_carry (p : Params.t) : list YearRow.t :=
  emitted_rounded (constants p) 1 (init p) (iterations p).

(** ** Signs, on the IEEE specification of a double *)

(** NaN, a zero of either sign, +infinity, or a positive finite double. *)
Definition nonneg (f : spec_float) : bool :=
  match f with
  | S754_nan | S754_zero _ => true
  | S754_infinity s | S754_finite s _ _ => negb s
  end.

(** A positive finite double. *)
Definition positive_finite (f : spec_float) : bool :=
  match f with
  | S754_finite false _ _ => true
  | _ => false
  end.

(** Zero or finite. *)
Definition finite_sf (f : spec_float) : bool :=
  match f with
  | S754_zero _ | S754_finite _ _ _ => true
  | _ => false
  end.

(** * The rest of the script: chart tables, focus year, CSV, test helpers *)

(** ** More built-ins *)

Module Js2.

(** [a || b] on numbers: [b] when [a] is 0, -0 or NaN. *)
Definition or_number (a b : float) : float :=
  if PrimFloat.is_zero a || PrimFloat.is_nan a then b else a.

(** [a || b] on strings: [b] when [a] is empty. *)
Definition or_string (a b : string) : string :=
  match a with
  | EmptyString => b
  | _ => a
  end.

(** [x === v] for a number [x]: [v] is a number equal to it (NaN equals
    nothing, the zeros are equal). *)
Definition strictEqualsNumber (x : float) (v : value) : bool :=
  match v with
  | JNum y => x =? y
  | _ => false
  end.

(** [Array.prototype.join] on strings. *)
Fixpoint join (sep : string) (l : list string) : string :=
  match l with
  | [] => ""
  | [s] => s
  | s :: l' => s ++ sep ++ join sep l'
  end%string.

(** [String.prototype.split] with a separator of one character; [cur] is
    the piece being read, reversed. *)
Fixpoint split_from (sep : ascii) (cur : list ascii) (s : string) : list string :=
  match s with
  | EmptyString => [string_of_list_ascii (rev cur)]
  | String c s' =>
      if Ascii.eqb c sep
      then string_of_list_ascii (rev cur) :: split_from sep [] s'
      else split_from sep (c :: cur) s'
  end.

Definition split (sep : ascii) (s : string) : list string := split_from sep [] s.

End Js2.

(** ** Chart data ([setup] in [script.js]) *)

Module MetricOption.
Record t : Type := mk { value : string; label : string; color : string }.
End MetricOption.

Definition metricOptions : list MetricOption.t :=
  [ MetricOption.mk "capitalEnd" "Final Capital" "#22c55e";
    MetricOption.mk "contribution" "Annual Contributions" "#3b82f6";
    MetricOption.mk "interestTotal" "Total Interest" "#f59e0b";
    MetricOption.mk "interestOnStart" "Interest on Capital" "#ef4444";
    MetricOption.mk "interestOnContribution" "Interest on Contributions" "#8b5cf6";
    MetricOption.mk "incomeMonthly" "Monthly Income" "#06b6d4";
    MetricOption.mk "expensesMonthly" "Monthly Expenses" "#f97316";
    MetricOption.mk "deltaMonthly" "Monthly Delta" "#84cc16" ].

(** The refs the chart data reads. *)
Record refs : Type := mkRefs {
  metric : string;
  showMultipleMetrics : bool;
  activeMetrics : list string;
  performanceMetric : string;
  focusYear : value
}.

(** A table handed to [arrayToDataTable]: rows of strings and numbers. *)
Definition table : Type := list (list value).

(** [metricOptions.find((o) => o.value === m)]. *)
Definition findOption (m : string) : option MetricOption.t :=
  find (fun o => String.eqb (MetricOption.value o) m) metricOptions.

(** [metricOptions.find(...)?.label || "Value"]. *)
Definition metricLabel (m : string) : string :=
  match findOption m with
  | Some o => Js2.or_string (MetricOption.label o) "Value"
  | None => "Value"
  end.

Definition getMetricValue (row : YearRow.t) (metric : string) : float :=
  if String.eqb metric "contribution" then YearRow.contribution row
  else if String.eqb metric "interestTotal"
       then YearRow.interestOnStart row + YearRow.interestOnContribution row
  else if String.eqb metric "interestOnStart" then YearRow.interestOnStart row
  else if String.eqb metric "interestOnContribution"
       then YearRow.interestOnContribution row
  else if String.eqb metric "incomeMonthly" then YearRow.incomeMonthly row
  else if String.eqb metric "expensesMonthly" then YearRow.expensesMonthly row
  else if String.eqb metric "deltaMonthly" then YearRow.deltaMonthly row
  else YearRow.capitalEnd row.

(** [rows.forEach(row => { data.push(f(row)) })] on [data]. *)
Definition forEach_push {A B : Type} (f : A -> B) (l : list A) (data : list B)
  : list B :=
  fold_left (fun data x => data ++ [f x]) l data.

Definition prepareMainChartData (s : refs) (rows : list YearRow.t) : table :=
  if showMultipleMetrics s then
    let headers :=
      JStr "Year"
      :: map (fun m =>
                JStr (match findOption m with
                      | Some o => Js2.or_string (MetricOption.label o) m
                      | None => m
                      end))
             (activeMetrics s) in
    forEach_push
      (fun row =>
         forEach_push (fun metric => JNum (getMetricValue row metric))
                      (activeMetrics s) [JNum (YearRow.year row)])
      rows [headers]
  else
    [JStr "Year"; JStr (metricLabel (metric s))]
    :: map (fun r => [JNum (YearRow.year r); JNum (getMetricValue r (metric s))])
           rows.

Definition prepareBreakdownData (rows : list YearRow.t) : table :=
  let headers := [JStr "Year"; JStr "Starting Capital"; JStr "Contributions";
                  JStr "Interest on Capital"; JStr "Interest on Contributions"] in
  forEach_push
    (fun row => [JNum (YearRow.year row); JNum (YearRow.capitalStart row);
                 JNum (YearRow.contribution row);
                 JNum (YearRow.interestOnStart row);
                 JNum (YearRow.interestOnContribution row)])
    rows [headers].

Definition prepareCashflowData (rows : list YearRow.t) : table :=
  let headers := [JStr "Year"; JStr "Income"; JStr "Expenses"; JStr "Net Flow"] in
  forEach_push
    (fun row => [JNum (YearRow.year row); JNum (YearRow.incomeMonthly row * 12);
                 JNum (YearRow.expensesMonthly row * 12);
                 JNum (YearRow.deltaMonthly row * 12)])
    rows [headers].

(** [Math.round(x * 100) / 100], the rounding of the ratio tables (no
    epsilon here). *)
Definition roundPct (x : float) : float := Js.round (x * 100) / 100.

Definition savingsRate (row : YearRow.t) : float :=
  if 0 <? YearRow.incomeMonthly row
  then YearRow.deltaMonthly row / YearRow.incomeMonthly row * 100 else 0.

(** The expression of [growthRate] in the ratios and of [roi] in the
    efficiency view. *)
Definition growthRate (row : YearRow.t) : float :=
  if 0 <? YearRow.capitalStart row
  then (YearRow.capitalEnd row - YearRow.capitalStart row)
       / YearRow.capitalStart row * 100
  else 0.

Definition expenseRatio (row : YearRow.t) : float :=
  if 0 <? YearRow.incomeMonthly row
  then YearRow.expensesMonthly row / YearRow.incomeMonthly row * 100 else 0.

Definition ratiosLine (row : YearRow.t) : list value :=
  [JNum (YearRow.year row); JNum (roundPct (savingsRate row));
   JNum (roundPct (growthRate row)); JNum (roundPct (expenseRatio row))].

Definition prepareRatiosData (rows : list YearRow.t) : table :=
  let headers := [JStr "Year"; JStr "Savings Rate (%)";
                  JStr "Capital Growth Rate (%)"; JStr "Expense Ratio (%)"] in
  forEach_push ratiosLine rows [headers].

(** One line of the growth view: [index] and the row at it. *)
Definition growthLine (rows : list YearRow.t) (index : nat) (row : YearRow.t)
  : list value :=
  match index with
  | O => [JNum (YearRow.year row); JNum 0; JNum 0; JNum 0]
  | S before =>
      (* [rows[index - 1]]: there, since [index] is an index of [rows] *)
      let prevRow := nth before rows row in
      let capitalGrowth :=
        (YearRow.capitalEnd row - YearRow.capitalEnd prevRow)
        / YearRow.capitalEnd prevRow * 100 in
      let incomeGrowth :=
        (YearRow.incomeMonthly row - YearRow.incomeMonthly prevRow)
        / YearRow.incomeMonthly prevRow * 100 in
      let expenseGrowth :=
        (YearRow.expensesMonthly row - YearRow.expensesMonthly prevRow)
        / YearRow.expensesMonthly prevRow * 100 in
      [JNum (YearRow.year row); JNum (roundPct capitalGrowth);
       JNum (roundPct incomeGrowth); JNum (roundPct expenseGrowth)]
  end.

Definition efficiencyLine (row : YearRow.t) : list value :=
  let efficiency :=
    if 0 <? YearRow.contribution row
    then YearRow.capitalEnd row
         / Js2.or_number (YearRow.contribution row + YearRow.capitalStart row) 1
    else 0 in
  let roi := growthRate row in
  let payback :=
    if 0 <? YearRow.deltaMonthly row
    then YearRow.capitalStart row / (YearRow.deltaMonthly row * 12) else 0 in
  [JNum (YearRow.year row); JNum (roundPct efficiency); JNum (roundPct roi);
   JNum (roundPct payback)].

(** [rows.forEach((row, index) => ...)]: the rows with their indices. *)
Definition indexed {A : Type} (l : list A) : list (nat * A) :=
  combine (seq 0 (List.length l)) l.

Definition preparePerformanceData (s : refs) (rows : list YearRow.t) : table :=
  if String.eqb (performanceMetric s) "returns" then
    forEach_push
      (fun row => [JNum (YearRow.year row);
                   JNum (YearRow.interestOnStart row
                         + YearRow.interestOnContribution row);
                   JNum (YearRow.interestOnStart row);
                   JNum (YearRow.interestOnContribution row)])
      rows [[JStr "Year"; JStr "Total Return"; JStr "Capital Return";
             JStr "Contribution Return"]]
  else if String.eqb (performanceMetric s) "growth" then
    forEach_push
      (fun ir => growthLine rows (fst ir) (snd ir))
      (indexed rows)
      [[JStr "Year"; JStr "Capital Growth"; JStr "Income Growth";
        JStr "Expense Growth"]]
  else if String.eqb (performanceMetric s) "efficiency" then
    forEach_push efficiencyLine rows
      [[JStr "Year"; JStr "Capital Efficiency"; JStr "ROI (%)";
        JStr "Payback Period"]]
  else prepareMainChartData s rows.

(** ** The focus year *)

(** The watcher on [rows]: the new value of [focusYear]. *)
Definition watchRows (newRows : list YearRow.t) (focusYear : value) : value :=
  match newRows with
  | [] => focusYear
  | first :: _ =>
      match find (fun r => Js2.strictEqualsNumber (YearRow.year r) focusYear)
                 newRows with
      | Some _ => focusYear
      | None => JNum (YearRow.year first)
      end
  end.

(** [rows.find(r => r.year === focusYear) || rows[0]], under the guard
    [rows.length > 0] of the pie chart. *)
Definition focusRow (rows : list YearRow.t) (focusYear : value)
  : option YearRow.t :=
  match rows with
  | [] => None
  | first :: _ =>
      Some match find (fun r => Js2.strictEqualsNumber (YearRow.year r) focusYear)
                      rows with
           | Some r => r
           | None => first
           end
  end.

(** [row[0] === 'Source' || row[1] > 0]. *)
Definition pieKeeps (row : list value) : bool :=
  match row with
  | [JStr name; amount] => String.eqb name "Source" || (0 <? Js.Number amount)
  | _ => false
  end.

Definition pieData (focusRow : YearRow.t) : table :=
  filter pieKeeps
    [ [JStr "Source"; JStr "Amount"];
      [JStr "Starting Capital"; JNum (YearRow.capitalStart focusRow)];
      [JStr "Contributions"; JNum (Js.max 0 (YearRow.contribution focusRow))];
      [JStr "Interest on Capital"; JNum (YearRow.interestOnStart focusRow)];
      [JStr "Interest on Contributions";
       JNum (YearRow.interestOnContribution focusRow)] ].

(** ** The first version of the script (one chart) *)

Module V1.

(** The [values] computed. *)
Definition values (metric : string) (r : list YearRow.t) : list float :=
  if String.eqb metric "contribution" then map YearRow.contribution r
  else if String.eqb metric "interestTotal"
       then map (fun x => YearRow.interestOnStart x
                          + YearRow.interestOnContribution x) r
  else if String.eqb metric "interestOnStart" then map YearRow.interestOnStart r
  else if String.eqb metric "interestOnContribution"
       then map YearRow.interestOnContribution r
  else map YearRow.capitalEnd r.

Definition metricOptions : list (string * string) :=
  [ ("capitalEnd", "Final capital");
    ("contribution", "Annual contributions");
    ("interestTotal", "Total interest (start+contrib)");
    ("interestOnStart", "Interest on last year's capital");
    ("interestOnContribution", "Interest on contributions") ]%string.

Definition metricLabel (m : string) : string :=
  match find (fun o => String.eqb (fst o) m) metricOptions with
  | Some o => Js2.or_string (snd o) "Value"
  | None => "Value"
  end.

(** The array [arr] that [drawChart] builds. *)
Definition chartArray (metric : string) (rows : list YearRow.t) : table :=
  forEach_push
    (fun r =>
       let v :=
         if String.eqb metric "contribution" then YearRow.contribution r
         else if String.eqb metric "interestTotal"
              then YearRow.interestOnStart r + YearRow.interestOnContribution r
         else if String.eqb metric "interestOnStart" then YearRow.interestOnStart r
         else if String.eqb metric "interestOnContribution"
              then YearRow.interestOnContribution r
         else YearRow.capitalEnd r in
       [JNum (YearRow.year r); JNum v])
    rows [[JStr "Year"; JStr (metricLabel metric)]].

End V1.

(** ** The CSV export *)

Section CSV.

(** The text of a number in [join] (Number::toString), left open. *)
Variable toString : float -> string.

Definition csvHeader : list string :=
  [ "Year"; "Monthly Income"; "Monthly Expenses"; "Delta (monthly)";
    "Contribution (annual)"; "Capital last year"; "% on last year capital";
    "% on current-year contributions"; "Final capital" ]%string.

Definition csvLine (r : YearRow.t) : string :=
  Js2.join ","
    (map toString
       [ YearRow.year r; YearRow.incomeMonthly r; YearRow.expensesMonthly r;
         YearRow.deltaMonthly r; YearRow.contribution r; YearRow.capitalStart r;
         YearRow.interestOnStart r; YearRow.interestOnContribution r;
         YearRow.capitalEnd r ]).

(** [lines] in [downloadCSV]. *)
Definition csvLines (rows : list YearRow.t) : list string :=
  [Js2.join "," csvHeader] ++ map csvLine rows.

(** The content of the blob, [lines.join("\n")]. *)
Definition csvText (rows : list YearRow.t) : string :=
  Js2.join (String "010" EmptyString) (csvLines rows).

End CSV.

(** ** The test helpers *)

(** The message of a thrown error: text, numbers interpolated into a
    template, or the engine's own message (a [TypeError]). *)
Inductive piece : Type :=
| Text (s : string)
| Num (x : float)
| Native.

(** How a call ends. *)
Inductive completion (A : Type) : Type :=
| Normal (a : A)
| Throw (message : list piece).

Arguments Normal {A} a.
Arguments Throw {A} message.

Definition andThen {A B : Type} (c : completion A) (f : A -> completion B)
  : completion B :=
  match c with
  | Normal a => f a
  | Throw m => Throw m
  end.

Notation "x <- c ;; k" := (andThen c (fun x => k))
  (at level 61, c at next level, right associativity).
Notation "c ;;; k" := (andThen c (fun _ => k))
  (at level 61, right associativity).

(** [near(actual, expected, eps)]. *)
Definition near (actual expected eps : float) : completion unit :=
  if eps <? abs (actual - expected)
  then Throw [Text "Expected "; Num expected; Text ", got "; Num actual]
  else Normal tt.

(** The default [eps] of [near]. *)
Definition eps_default : float := 1e-6.

Module TestResult.
Record t : Type := mk { name : string; pass : bool; message : list piece }.
End TestResult.

(** [e.message || String(e)]: an error thrown with an empty message shows
    as "Error". *)
Definition shownMessage (m : list piece) : list piece :=
  match m with
  | [] | [Text EmptyString] => [Text "Error"]
  | _ => m
  end.

(** [assert(name, fn)] for a synchronous [fn], given as the way its call
    ends. *)
Definition assert (name : string) (fn : completion unit) : TestResult.t :=
  match fn with
  | Normal _ => TestResult.mk name true []
  | Throw m => TestResult.mk name false (shownMessage m)
  end.

(** Reading a field of [r[i]]: a [TypeError] when [r[i]] is [undefined]. *)
Definition field (o : option YearRow.t) (f : YearRow.t -> float)
  : completion float :=
  match o with
  | Some w => Normal (f w)
  | None => Throw [Native]
  end.

(** [l.forEach(f)] for an [f] that may throw. *)
Fixpoint forEach {A : Type} (f : A -> completion unit) (l : list A)
  : completion unit :=
  match l with
  | [] => Normal tt
  | a :: l' => f a ;;; forEach f l'
  end.

(** The tests of [runTests] that exercise the engine and the CSV
    separator (the others query the page). *)
Definition engineTests : list TestResult.t :=
  [ assert "Year 1 basic math (defaults)"
      (let r := buildRows (params 0 5589 4000 10 15 5 1 (JNum 0.5)) in
       let y1 := nth_error r 0 in
       let expectDelta := 1589 in
       let expectContribution := 1589 * 12 in
       let expectInterestOnStart := 0 in
       let expectInterestOnContribution := 19068 * 0.15 * 0.5 in
       let expectCapitalEnd := 0 + 19068 + 0 + 1430.1 in
       a <- field y1 YearRow.deltaMonthly ;; near a expectDelta eps_default ;;;
       a <- field y1 YearRow.contribution ;;
       near a expectContribution eps_default ;;;
       a <- field y1 YearRow.interestOnStart ;;
       near a expectInterestOnStart eps_default ;;;
       a <- field y1 YearRow.interestOnContribution ;;
       near a expectInterestOnContribution eps_default ;;;
       a <- field y1 YearRow.capitalEnd ;; near a expectCapitalEnd eps_default);
    assert "Negative delta withdraws from capital (floored at 0)"
      (let r := buildRows (params 5000 1000 2000 0 10 0 1 (JNum 0.5)) in
       let y1 := nth_error r 0 in
       a <- field y1 YearRow.capitalEnd ;;
       if a <? 0 then Throw [Text "Capital went below zero despite floor"]
       else Normal tt);
    assert "Year 2 growth/inflation application"
      (let r := buildRows (params 0 5589 4000 10 0 5 2 (JNum 0)) in
       let y2 := nth_error r 1 in
       a <- field y2 YearRow.incomeMonthly ;; near a (5589 * 1.1) eps_default ;;;
       a <- field y2 YearRow.expensesMonthly ;; near a (4000 * 1.05) eps_default);
    assert "CSV newline separator correctness"
      (let header := ["a"; "b"]%string in
       let lines := [Js2.join "," header] ++ ["1,2"%string] in
       let csv := Js2.join (String "010" EmptyString) lines in
       if negb (Nat.eqb (List.length (Js2.split "010" csv)) 2)
       then Throw [Text "CSV does not contain expected line break"]
       else Normal tt);
    assert "buildRows length matches years"
      (let r := buildRows (params 0 1000 500 0 0 0 5 (JNum 0)) in
       if negb (Nat.eqb (List.length r) 5)
       then Throw [Text "Expected 5 years, got ";
                   Num (Js.of_int (Z.of_nat (List.length r)))]
       else Normal tt);
    assert "0× factor yields zero interest on contribution"
      (let r := buildRows (params 0 2000 1000 0 10 0 1 (JNum 0)) in
       let y1 := nth_error r 0 in
       a <- field y1 YearRow.interestOnContribution ;; near a 0 eps_default);
    assert "Default contribution factor is 1× when undefined"
      (let r := buildRows (params 0 2000 1000 0 10 0 1 JUndefined) in
       let y1 := nth_error r 0 in
       a <- field y1 YearRow.interestOnContribution ;; near a 1200 eps_default);
    assert "Rows contain only finite numbers"
      (let r := buildRows (params 0 5589 4000 10 15 5 3 (JNum 1)) in
       forEach
         (fun row =>
            forEach (fun v => if negb (Js.isFinite v)
                              then Throw [Text "Found non-finite value"]
                              else Normal tt)
                    (numeric_fields row))
         r);
    assert "Coerces NaN/blank inputs to finite numbers"
      (let r := buildRows (Params.mk (JNum nan) (JStr "") JUndefined (JStr "")
                             (JStr "") JNull (JStr "") (JStr "")) in
       if Nat.ltb (List.length r) 1 then Throw [Text "No rows produced"]
       else
         let y1 := nth_error r 0 in
         match y1 with
         | Some y1 =>
             forEach (fun v => if negb (Js.isFinite v)
                               then Throw [Text "Found non-finite after coercion"]
                               else Normal tt)
                     (numeric_fields y1)
         | None => Throw [Native]
         end) ].

(** ** Notions the statements about these use *)

(** A table of width [w]: every line has [w] cells. *)
Definition rectangular (w : nat) (t : table) : Prop :=
  Forall (fun line => List.length line = w) t.

(** The first column below the header. *)
Definition firstColumn (t : table) : list value :=
  map (hd JUndefined) (tl t).

Definition years_of (rows : list YearRow.t) : list value :=
  map (fun r => JNum (YearRow.year r)) rows.

(** The columns that do not involve the capital. *)
Definition cashColumns (w : YearRow.t) : list float :=
  [ YearRow.year w; YearRow.incomeMonthly w; YearRow.expensesMonthly w;
    YearRow.deltaMonthly w; YearRow.contribution w ].

(** Not NaN, and neither NaN nor finite, on the specification. *)
Definition number_sf (f : spec_float) : bool :=
  match f with
  | S754_nan => false
  | _ => true
  end.

Definition nonfinite_sf (f : spec_float) : bool :=
  match f with
  | S754_nan | S754_infinity _ => true
  | _ => false
  end.

(** No occurrence of the character [c] in [s]. *)
Fixpoint lacks (c : ascii) (s : string) : bool :=
  match s with
  | EmptyString => true
  | String a s' => negb (Ascii.eqb a c) && lacks c s'
  end.

(** ** Sizes *)

(** [|x| < 2^E]: a zero, or a finite double [m * 2^e] whose mantissa has at
    most [E - e] bits. *)
Definition within_sf (E : Z) (f : spec_float) : bool :=
  match f with
  | S754_zero _ => true
  | S754_finite _ m e => (Z.pos (digits2_pos m) + e <=? E)%Z
  | _ => false
  end.

Definition within (E : Z) (x : float) : bool := within_sf E (Prim2SF x).

(** The bounds of a record of ordinary size: 2^64 for amounts, 1024 for
    percentages and for the contribution factor. *)
Definition amount_bound : float := Eval compute in Z.ldexp 1 64.
Definition rate_bound : float := 1024.

(** [Math.abs(x) < b]. *)
Definition below (b x : float) : bool := abs x <? b.

(** A record of ordinary size: after coercion the three amounts are below
    2^64 in absolute value, the three percentages and the contribution
    factor below 1024. *)
Definition ordinary (p : Params.t) : bool :=
  below amount_bound (capitalStart (init p))
  && below amount_bound (incomeMonthly (init p))
  && below amount_bound (expensesMonthly (init p))
  && below rate_bound (toFinite (Params.incomeGrowthPct p) 0)
  && below rate_bound (toFinite (Params.returnPct p) 0)
  && below rate_bound (toFinite (Params.inflationPct p) 0)
  && below rate_bound (k (constants p)).

(** [x * f * ... * f], [i] times: what compounding gives after [i] years. *)
Fixpoint compound (x f : float) (i : nat) : float :=
  match i with
  | O => x
  | S i' => compound x f i' * f
  end.

(** * Facts about doubles

    Read off the IEEE specification of the primitive operations
    ([SpecFloat], [FloatAxioms]). *)

Module Dbl.

Lemma digits_bounds (m : positive) :
  (2 ^ (Z.pos (digits2_pos m) - 1) <= Z.pos m < 2 ^ Z.pos (digits2_pos m))%Z.
Proof.
  induction m as [m IH|m IH|]; cbn [digits2_pos].
  - rewrite Pos2Z.inj_succ, Z.pow_succ_r by lia.
    replace (Z.succ (Z.pos (digits2_pos m)) - 1)%Z
      with (Z.succ (Z.pos (digits2_pos m) - 1)) by lia.
    rewrite Z.pow_succ_r by lia. lia.
  - rewrite Pos2Z.inj_succ, Z.pow_succ_r by lia.
    replace (Z.succ (Z.pos (digits2_pos m)) - 1)%Z
      with (Z.succ (Z.pos (digits2_pos m) - 1)) by lia.
    rewrite Z.pow_succ_r by lia. lia.
  - simpl. lia.
Qed.

Lemma digits_shift (q k : positive) :
  digits2_pos (Pos.iter xO q k) = (digits2_pos q + k)%positive.
Proof.
  induction k as [|k IH] using Pos.peano_ind.
  - simpl. now rewrite Pos.add_1_r.
  - rewrite Pos.iter_succ. cbn [digits2_pos]. rewrite IH. lia.
Qed.

(** A 53-bit mantissa with an exponent in range is not rounded. *)
Lemma round_aux_canonical (s : bool) (mz : positive) (ez : Z) :
  digits2_pos mz = 53%positive -> (-1074 <= ez <= 971)%Z ->
  binary_round_aux prec emax s (Z.pos mz) ez loc_Exact = S754_finite s mz ez.
Proof.
  intros Hd He.
  assert (Hs : shr_fexp prec emax (Z.pos mz) ez loc_Exact
               = ({| shr_m := Z.pos mz; shr_r := false; shr_s := false |}, ez)).
  { unfold shr_fexp, fexp, emin, Zdigits2, prec, emax. rewrite Hd.
    replace (Z.max (53 + ez - 53) (3 - 1024 - 53) - ez)%Z with 0%Z by lia.
    reflexivity. }
  unfold binary_round_aux. rewrite Hs. cbn [shr_m loc_of_shr_record round_nearest_even].
  rewrite Hs. cbn [shr_m].
  destruct (Z.leb_spec ez (emax - prec)) as [_|H]; [reflexivity|].
  unfold emax, prec in H. lia.
Qed.

Lemma iter_xO (q k : positive) :
  Z.pos (Pos.iter xO q k) = (Z.pos q * 2 ^ Z.pos k)%Z.
Proof.
  induction k as [|k IH] using Pos.peano_ind.
  - simpl. lia.
  - rewrite Pos.iter_succ, Pos2Z.inj_xO, IH, Pos2Z.inj_succ, Z.pow_succ_r by lia.
    lia.
Qed.

(** The double of a positive integer below 2^53 is that integer: positive,
    with the exponent its bit length gives and the mantissa shifted to 53
    bits. *)
Lemma of_uint63_small (q : positive) :
  (Z.pos q < 2 ^ 53)%Z ->
  exists mz, Prim2SF (of_uint63 (Uint63.of_Z (Z.pos q)))
             = S754_finite false mz (Z.pos (digits2_pos q) - 53)
             /\ Z.pos mz = (Z.pos q * 2 ^ (53 - Z.pos (digits2_pos q)))%Z.
Proof.
  intros Hq. rewrite FloatAxioms.of_uint63_spec, Uint63.of_Z_spec.
  rewrite Z.mod_small by (change wB with (2 ^ 63)%Z; lia).
  cbn [binary_normalize]. unfold binary_round.
  pose proof (digits_bounds q) as Hb.
  assert (Hd : (Z.pos (digits2_pos q) <= 53)%Z).
  { destruct (Z.le_gt_cases (Z.pos (digits2_pos q)) 53) as [H|H]; [exact H|].
    assert (2 ^ 53 <= 2 ^ (Z.pos (digits2_pos q) - 1))%Z
      by (apply Z.pow_le_mono_r; lia).
    lia. }
  assert (Hf : fexp prec emax (Z.pos (digits2_pos q) + 0)
               = (Z.pos (digits2_pos q) - 53)%Z).
  { unfold fexp, emin, prec, emax. lia. }
  rewrite Hf. unfold shl_align.
  destruct (Z.pos (digits2_pos q) - 53 - 0)%Z as [|d|d] eqn:Ed.
  - exists q. replace (Z.pos (digits2_pos q) - 53)%Z with 0%Z by lia. split.
    + apply round_aux_canonical; [|lia]. apply Pos2Z.inj. lia.
    + replace (53 - Z.pos (digits2_pos q))%Z with 0%Z by lia. lia.
  - lia.
  - exists (Pos.iter xO q d). split.
    + apply round_aux_canonical; [|lia].
      rewrite digits_shift. apply Pos2Z.inj. rewrite Pos2Z.inj_add. lia.
    + rewrite iter_xO. f_equal. f_equal. lia.
Qed.

(** A double is determined by its specification. *)
Lemma of_spec (x : float) (f : spec_float) :
  Prim2SF x = f -> x = SF2Prim f.
Proof. intros <-. symmetry. apply SF2Prim_Prim2SF. Qed.

Lemma compare_refl (s : bool) (m : positive) (e : Z) :
  SFcompare (S754_finite s m e) (S754_finite s m e) = Some Eq.
Proof.
  simpl. rewrite Z.compare_refl, Pos.compare_cont_refl. now destruct s.
Qed.

(** What [Number.isFinite] leaves: zeros and finite doubles. *)
Lemma finite_cases (x : float) :
  Js.isFinite x = true ->
  (exists s, Prim2SF x = S754_zero s)
  \/ (exists s m e, Prim2SF x = S754_finite s m e).
Proof.
  unfold Js.isFinite, is_finite, is_nan, is_infinity.
  rewrite !FloatAxioms.eqb_spec, FloatAxioms.abs_spec.
  change (Prim2SF infinity) with (S754_infinity false).
  destruct (Prim2SF x) as [s|s| |s m e].
  - intros _. left. now exists s.
  - destruct s; discriminate.
  - discriminate.
  - intros _. right. now exists s, m, e.
Qed.

Lemma is_nan_finite (x : float) (s : bool) (m : positive) (e : Z) :
  Prim2SF x = S754_finite s m e -> is_nan x = false.
Proof.
  intros E. unfold is_nan. rewrite FloatAxioms.eqb_spec, E.
  unfold SFeqb. now rewrite compare_refl.
Qed.

(** The exponent of a valid finite double with mantissa [m]. *)
Lemma valid_exponent (x : float) (s : bool) (m : positive) (e : Z) :
  Prim2SF x = S754_finite s m e ->
  e = Z.max (Z.pos (digits2_pos m) + e - 53) (-1074).
Proof.
  intros E. pose proof (Prim2SF_valid x) as V. rewrite E in V.
  unfold valid_binary, bounded, canonical_mantissa in V.
  apply andb_true_iff in V. destruct V as [V _].
  apply Z.eqb_eq in V. unfold fexp, emin, prec, emax in V. lia.
Qed.

End Dbl.

(** * The horizon: [years] is the clamped integer *)

Module Horizon.

(** The integers the clamp can leave untouched, checked one by one. *)
Lemma table :
  forallb (fun i =>
             Leibniz.eqb (Js.max 1 (Js.min 60 (Js.of_int (Z.of_nat i))))
                         (Js.of_int (clamp (Z.of_nat i) 1 60)))
          (seq 0 64) = true.
Proof. vm_compute. reflexivity. Qed.

Lemma small (n : Z) :
  (0 <= n < 64)%Z ->
  Js.max 1 (Js.min 60 (Js.of_int n)) = Js.of_int (clamp n 1 60).
Proof.
  intros Hn. pose proof table as T. rewrite forallb_forall in T.
  specialize (T (Z.to_nat n)). rewrite Z2Nat.id in T by lia.
  apply FloatAxioms.Leibniz.eqb_spec, T, in_seq. lia.
Qed.

(** A positive double with exponent above that of 60 is cut to 60. *)
Lemma high (F : float) (m : positive) (e : Z) :
  Prim2SF F = S754_finite false m e -> (-47 < e)%Z ->
  Js.max 1 (Js.min 60 F) = 60.
Proof.
  intros E He.
  assert (M : Js.min 60 F = 60).
  { unfold Js.min. rewrite (Dbl.is_nan_finite F _ _ _ E).
    change (is_nan 60) with false. change (Leibniz.eqb 60 zero) with false.
    cbn [orb andb]. rewrite FloatAxioms.ltb_spec, E.
    change (Prim2SF 60) with (S754_finite false 8444249301319680 (-47)).
    unfold SFltb, SFcompare.
    destruct (Z.compare_spec e (-47)) as [H|H|H]; try lia. reflexivity. }
  rewrite M. reflexivity.
Qed.

(** A negative double is raised to 1. *)
Lemma low (F : float) (m : positive) (e : Z) :
  Prim2SF F = S754_finite true m e ->
  Js.max 1 (Js.min 60 F) = 1.
Proof.
  intros E.
  assert (M : Js.min 60 F = F).
  { unfold Js.min. rewrite (Dbl.is_nan_finite F _ _ _ E).
    change (is_nan 60) with false. change (Leibniz.eqb 60 zero) with false.
    cbn [orb andb]. rewrite FloatAxioms.ltb_spec, E. reflexivity. }
  rewrite M. unfold Js.max. rewrite (Dbl.is_nan_finite F _ _ _ E).
  change (is_nan 1) with false. change (Leibniz.eqb 1 neg_zero) with false.
  cbn [orb andb]. rewrite FloatAxioms.ltb_spec, E. reflexivity.
Qed.

Lemma zeros (F : float) (s : bool) :
  Prim2SF F = S754_zero s -> Js.max 1 (Js.min 60 F) = 1.
Proof.
  intros E. rewrite (Dbl.of_spec F _ E). now destruct s.
Qed.

Lemma shiftl_neg_exponent (a e : Z) :
  (e < 0)%Z -> Z.shiftl a e = (a / 2 ^ (- e))%Z.
Proof.
  intros He. rewrite <- Z.shiftr_opp_r. apply Z.shiftr_div_pow2. lia.
Qed.

(** [Math.max(1, Math.min(60, Math.floor(x)))] on a finite double is the
    double of the clamped integer floor. *)
Lemma clamped (x : float) :
  Js.isFinite x = true ->
  Js.max 1 (Js.min 60 (Js.floor x))
  = Js.of_int (clamp (integer_floor x) 1 60).
Proof.
  intros Hx. unfold Js.floor, integer_floor.
  destruct (Dbl.finite_cases x Hx) as [[s E]|[s [m [e E]]]]; rewrite E.
  - rewrite (zeros x s E). reflexivity.
  - pose proof (Dbl.valid_exponent x s m e E) as V.
    pose proof (Dbl.digits_bounds m) as B.
    assert (Hm : (Z.pos m < 2 ^ 53)%Z).
    { assert (2 ^ Z.pos (digits2_pos m) <= 2 ^ 53)%Z
        by (apply Z.pow_le_mono_r; lia).
      lia. }
    destruct (Z.leb_spec 0 e) as [He|He].
    + (* an integral double: at least 2^52 in absolute value *)
      assert (Hd : Z.pos (digits2_pos m) = 53%Z) by lia.
      rewrite Hd in B.
      assert (P : (1 <= 2 ^ e)%Z) by (apply (Z.pow_le_mono_r 2 0 e); lia).
      destruct s; cbn [Js.signed].
      * rewrite (low x m e E). rewrite Z.shiftl_mul_pow2 by lia.
        unfold clamp. replace (Z.max 1 (Z.min 60 (Z.neg m * 2 ^ e))) with 1%Z
          by nia.
        reflexivity.
      * rewrite (high x m e E) by lia. rewrite Z.shiftl_mul_pow2 by lia.
        unfold clamp. replace (Z.max 1 (Z.min 60 (Z.pos m * 2 ^ e))) with 60%Z
          by nia.
        reflexivity.
    + rewrite shiftl_neg_exponent by exact He.
      assert (P : (0 < 2 ^ (- e))%Z) by (apply Z.pow_pos_nonneg; lia).
      destruct s; cbn [Js.signed].
      * (* a negative fraction: the floor is a negative integer *)
        assert (Hq : (Z.neg m <= Z.neg m / 2 ^ (- e) < 0)%Z).
        { split; [apply Z.div_le_lower_bound; nia
                 | apply Z.div_lt_upper_bound; lia]. }
        destruct (Z.neg m / 2 ^ (- e))%Z as [|q|q] eqn:Eq; try lia.
        cbn [Js.of_int Z.opp].
        destruct (Dbl.of_uint63_small q) as [mz [Hmz _]]; [lia|].
        rewrite (low _ mz (Z.pos (digits2_pos q) - 53)).
        -- unfold clamp. now replace (Z.max 1 (Z.min 60 (Z.neg q))) with 1%Z by lia.
        -- now rewrite FloatAxioms.opp_spec, Hmz.
      * assert (Hq : (0 <= Z.pos m / 2 ^ (- e) <= Z.pos m)%Z).
        { split; [apply Z.div_pos; lia
                 | apply Z.div_le_upper_bound; nia]. }
        destruct (Z.lt_ge_cases (Z.pos m / 2 ^ (- e)) 64) as [Hs|Hs].
        -- apply small. lia.
        -- destruct (Z.pos m / 2 ^ (- e))%Z as [|q|q] eqn:Eq; try lia.
           cbn [Js.of_int].
           destruct (Dbl.of_uint63_small q) as [mz [Hmz _]]; [lia|].
           pose proof (Dbl.digits_bounds q) as Bq.
           assert (6 < Z.pos (digits2_pos q))%Z.
           { destruct (Z.lt_ge_cases 6 (Z.pos (digits2_pos q))) as [H|H];
               [exact H|].
             assert (2 ^ Z.pos (digits2_pos q) <= 2 ^ 6)%Z
               by (apply Z.pow_le_mono_r; lia).
             lia. }
           rewrite (high _ mz _ Hmz) by lia.
           unfold clamp.
           now replace (Z.max 1 (Z.min 60 (Z.pos q))) with 60%Z by lia.
Qed.

End Horizon.

(** * The built-ins against their definitions in ECMA-262 *)

(** [Js.of_int] is exact below 2^53. *)
Lemma of_int_exact (n : Z) :
  (Z.abs n < 2 ^ 53)%Z -> integer_floor (Js.of_int n) = n.
Proof.
  intros Hn. unfold integer_floor.
  destruct n as [|q|q]; [reflexivity| |]; cbn [Js.of_int Z.opp].
  - destruct (Dbl.of_uint63_small q) as [mz [E V]]; [lia|]. rewrite E.
    cbn [Js.signed]. pose proof (Dbl.digits_bounds q).
    destruct (Z.eq_dec (Z.pos (digits2_pos q)) 53) as [D|D].
    + rewrite D in *. simpl Z.sub in *. rewrite Z.shiftl_0_r. lia.
    + assert (Z.pos (digits2_pos q) < 53)%Z.
      { destruct (Z.lt_ge_cases (Z.pos (digits2_pos q)) 53); [assumption|].
        assert (2 ^ 53 <= 2 ^ (Z.pos (digits2_pos q) - 1))%Z
          by (apply Z.pow_le_mono_r; lia).
        lia. }
      rewrite Horizon.shiftl_neg_exponent by lia. rewrite V.
      replace (- (Z.pos (digits2_pos q) - 53))%Z
        with (53 - Z.pos (digits2_pos q))%Z by lia.
      apply Z.div_mul. apply Z.pow_nonzero; lia.
  - destruct (Dbl.of_uint63_small q) as [mz [E V]]; [lia|].
    rewrite FloatAxioms.opp_spec, E. cbn [SFopp negb Js.signed].
    pose proof (Dbl.digits_bounds q).
    destruct (Z.eq_dec (Z.pos (digits2_pos q)) 53) as [D|D].
    + rewrite D in *. simpl Z.sub in *. rewrite Z.shiftl_0_r. lia.
    + assert (Z.pos (digits2_pos q) < 53)%Z.
      { destruct (Z.lt_ge_cases (Z.pos (digits2_pos q)) 53); [assumption|].
        assert (2 ^ 53 <= 2 ^ (Z.pos (digits2_pos q) - 1))%Z
          by (apply Z.pow_le_mono_r; lia).
        lia. }
      rewrite Horizon.shiftl_neg_exponent by lia.
      replace (Z.neg mz) with (- Z.pos mz)%Z by reflexivity. rewrite V.
      replace (- (Z.pos (digits2_pos q) - 53))%Z
        with (53 - Z.pos (digits2_pos q))%Z by lia.
      rewrite <- Z.mul_opp_l. rewrite Z.div_mul by (apply Z.pow_nonzero; lia).
      reflexivity.
Qed.

(** The integer [Math.round] computes for [M * 2^e], [e < 0], is the one
    with [n - 1/2 <= M * 2^e < n + 1/2]: nearest, ties upwards. *)
Lemma round_half_up (M e : Z) :
  (e < 0)%Z ->
  let n := Z.shiftl (M + Z.shiftl 1 (- e - 1)) e in
  ((2 * n - 1) * 2 ^ (- e) <= 2 * M < (2 * n + 1) * 2 ^ (- e))%Z.
Proof.
  intros He n. subst n.
  rewrite (Z.shiftl_mul_pow2 1 (- e - 1)) by lia. rewrite Z.mul_1_l.
  rewrite Horizon.shiftl_neg_exponent by exact He.
  remember (- e - 1)%Z as k eqn:Ek.
  replace (- e)%Z with (Z.succ k) by lia.
  rewrite Z.pow_succ_r by lia.
  set (h := (2 ^ k)%Z).
  assert (Hh : (0 < h)%Z) by (apply Z.pow_pos_nonneg; lia).
  pose proof (Z.div_mod (M + h) (2 * h) ltac:(lia)) as D.
  pose proof (Z.mod_pos_bound (M + h) (2 * h) ltac:(lia)) as R.
  nia.
Qed.

(** The integer floor of [M * 2^e], [e < 0]: [n <= M * 2^e < n + 1]. *)
Lemma floor_spec (M e : Z) :
  (e < 0)%Z ->
  let n := Z.shiftl M e in
  (n * 2 ^ (- e) <= M < (n + 1) * 2 ^ (- e))%Z.
Proof.
  intros He n. subst n. rewrite Horizon.shiftl_neg_exponent by exact He.
  assert (Hh : (0 < 2 ^ (- e))%Z) by (apply Z.pow_pos_nonneg; lia).
  pose proof (Z.div_mod M (2 ^ (- e)) ltac:(lia)) as D.
  pose proof (Z.mod_pos_bound M (2 ^ (- e)) ltac:(lia)) as R.
  nia.
Qed.

Lemma round_examples :
  map Js.round [2.5; -2.5; 0.49999999999999994; 0.5; -0.5; 1.4; -1.6;
                143010.00000000003; infinity; 1e300]
  = [3; -2; 0; 1; -0; 1; -2; 143010; infinity; 1e300].
Proof. vm_compute. reflexivity. Qed.

Lemma floor_max_min_examples :
  map Js.floor [2.7; -2.5; 0.5; -0; 60.999; 1e30] = [2; -3; 0; -0; 60; 1e30]
  /\ [Js.max 0 (-0); Js.max (-0) 0; Js.max 1 nan; Js.max 1 60; Js.min 60 61;
      Js.min 60 59; Js.min 0 (-0)]
     = [0; 0; nan; 60; 60; 59; -0].
Proof. vm_compute. split; reflexivity. Qed.

Lemma Number_examples :
  map Js.Number
      [JStr "0.1"; JStr "  12.5e1 "; JStr ""; JStr "   "; JStr "abc";
       JStr "-0"; JStr "5."; JStr ".5"; JStr "."; JStr "0x1F"; JStr "-0x1F";
       JStr "1e"; JStr "1e+3"; JStr "-Infinity"; JStr "1e400"; JStr "12px";
       JStr "1,5"; JStr "1430.1"; JStr "5e-324"; JStr "2e-324";
       JStr "9007199254740993"; JStr "1.7976931348623157e308";
       JNull; JUndefined; JBool true; JBool false; JNum 7]
  = [0.1; 125; 0; 0; nan; -0; 5; 0.5; nan; 31; nan; nan; 1000; neg_infinity;
     infinity; nan; nan; 1430.1; 5e-324; 0; 9007199254740992;
     1.7976931348623157e308; 0; nan; 1; 0; 7].
Proof. vm_compute. reflexivity. Qed.

(** * Overflow

    When rounding, [Math.round] and the division by 100 stay in range. *)

Module Overflow.

Lemma shr_1_m (mrs : shr_record) :
  (0 <= shr_m mrs)%Z -> shr_m (shr_1 mrs) = (shr_m mrs / 2)%Z.
Proof.
  destruct mrs as [m r s]. cbn [shr_m]. intros Hm.
  destruct m as [|q|q]; [reflexivity| |lia].
  destruct q as [q|q|]; cbn [shr_1 shr_m].
  - rewrite Pos2Z.inj_xI. apply Z.div_unique with 1%Z; lia.
  - rewrite Pos2Z.inj_xO. apply Z.div_unique with 0%Z; lia.
  - reflexivity.
Qed.

Lemma iter_shr_1 (p : positive) :
  forall mrs, (0 <= shr_m mrs)%Z ->
    shr_m (iter_pos shr_1 p mrs) = (shr_m mrs / 2 ^ Z.pos p)%Z.
Proof.
  assert (P : forall m, (0 <= m)%Z -> forall k, (0 <= k)%Z -> (0 <= m / 2 ^ k)%Z).
  { intros m Hm k Hk. apply Z.div_pos; [exact Hm|]. apply Z.pow_pos_nonneg; lia. }
  induction p as [p IH|p IH|]; intros mrs Hm; cbn [iter_pos].
  - assert (H1 : (0 <= shr_m (shr_1 mrs))%Z)
      by (rewrite shr_1_m by exact Hm; apply Z.div_pos; lia).
    assert (H2 : (0 <= shr_m (iter_pos shr_1 p (shr_1 mrs)))%Z)
      by (rewrite IH by exact H1; apply P; lia).
    rewrite (IH _ H2), (IH _ H1), shr_1_m by exact Hm.
    rewrite !Z.div_div by (try apply Z.pow_pos_nonneg; lia).
    f_equal. replace (Z.pos p~1) with (1 + Z.pos p + Z.pos p)%Z by lia.
    rewrite !Z.pow_add_r by lia. lia.
  - assert (H1 : (0 <= shr_m (iter_pos shr_1 p mrs))%Z)
      by (rewrite IH by exact Hm; apply P; lia).
    rewrite (IH _ H1), (IH _ Hm).
    rewrite !Z.div_div by (try apply Z.pow_pos_nonneg; lia).
    f_equal. replace (Z.pos p~0) with (Z.pos p + Z.pos p)%Z by lia.
    rewrite Z.pow_add_r by lia. reflexivity.
  - now rewrite shr_1_m.
Qed.

(** Bit length against value. *)
Lemma Zdigits2_le (m k : Z) :
  (0 <= m < 2 ^ k)%Z -> (0 <= k)%Z -> (Zdigits2 m <= k)%Z.
Proof.
  intros Hm Hk. destruct m as [|q|q]; simpl; [lia| |lia].
  pose proof (Dbl.digits_bounds q) as B.
  destruct (Z.le_gt_cases (Z.pos (digits2_pos q)) k) as [H|H]; [exact H|].
  assert (2 ^ k <= 2 ^ (Z.pos (digits2_pos q) - 1))%Z
    by (apply Z.pow_le_mono_r; lia).
  lia.
Qed.

(** [shr_fexp] on a mantissa [m >= 0] with [m * 2^e < 2^1023], [e <= 971]:
    the mantissa stays non-negative and the invariant is kept, with room
    for one unit. *)
Lemma shr_fexp_bound (m e : Z) (l : location) :
  (0 <= m)%Z -> (e <= 971)%Z -> (m < 2 ^ (1023 - e))%Z ->
  let '(mrs, e') := shr_fexp prec emax m e l in
  (0 <= shr_m mrs)%Z /\ (e' <= 971)%Z /\ (shr_m mrs < 2 ^ (1023 - e'))%Z.
Proof.
  intros Hm He Hb. unfold shr_fexp.
  assert (Hk : (0 <= 1023 - e)%Z) by lia.
  pose proof (Zdigits2_le m (1023 - e) (conj Hm Hb) Hk) as Hd.
  assert (M : shr_m (shr_record_of_loc m l) = m)
    by (destruct l as [|[| |]]; reflexivity).
  unfold shr.
  destruct (fexp prec emax (Zdigits2 m + e) - e)%Z as [|n|n] eqn:En;
    try (rewrite M; repeat split; assumption).
  assert (Hn : (Z.pos n <= 1023 - e)%Z /\ (e + Z.pos n <= 970)%Z).
  { unfold fexp, emin, prec, emax in En. lia. }
  rewrite iter_shr_1 by (rewrite M; exact Hm). rewrite M.
  assert (P : (0 < 2 ^ Z.pos n)%Z) by (apply Z.pow_pos_nonneg; lia).
  split; [apply Z.div_pos; lia|]. split; [lia|].
  apply Z.div_lt_upper_bound; [exact P|].
  rewrite <- Z.pow_add_r by lia.
  now replace (Z.pos n + (1023 - (e + Z.pos n)))%Z with (1023 - e)%Z by lia.
Qed.

Lemma round_nearest_even_bound (m : Z) (l : location) :
  (m <= round_nearest_even m l <= m + 1)%Z.
Proof.
  destruct l as [|[| |]]; cbn [round_nearest_even]; try lia.
  destruct (Z.even m); lia.
Qed.

(** A value below 2^1023 is rounded without overflow. *)
Lemma round_aux_finite (s : bool) (m e : Z) (l : location) :
  (0 <= m)%Z -> (e <= 971)%Z -> (m < 2 ^ (1023 - e))%Z ->
  finite_sf (binary_round_aux prec emax s m e l) = true.
Proof.
  intros Hm He Hb. unfold binary_round_aux.
  pose proof (shr_fexp_bound m e l Hm He Hb) as B1.
  destruct (shr_fexp prec emax m e l) as [mrs' e'].
  destruct B1 as [B1 [B2 B3]].
  pose proof (round_nearest_even_bound (shr_m mrs') (loc_of_shr_record mrs')) as R.
  set (m' := round_nearest_even (shr_m mrs') (loc_of_shr_record mrs')) in *.
  unfold shr_fexp.
  assert (Hd : (Zdigits2 m' <= 1024 - e')%Z).
  { apply Zdigits2_le; [|lia]. split; [lia|].
    replace (1024 - e')%Z with (Z.succ (1023 - e')) by lia.
    rewrite Z.pow_succ_r by lia. lia. }
  cbn [shr_record_of_loc]. unfold shr.
  destruct (fexp prec emax (Zdigits2 m' + e') - e')%Z as [|n|n] eqn:En.
  - cbn [shr_m]. destruct m' as [|q|q]; [reflexivity| |lia].
    destruct (Z.leb_spec e' (emax - prec)) as [_|H]; [reflexivity|].
    unfold emax, prec in H. lia.
  - assert (Hn : (e' + Z.pos n <= 971)%Z).
    { unfold fexp, emin, prec, emax in En. lia. }
    assert (Hq : (0 <= shr_m (iter_pos shr_1 n
                      {| shr_m := m'; shr_r := false; shr_s := false |}))%Z).
    { rewrite iter_shr_1 by (cbn [shr_m]; lia). cbn [shr_m].
      apply Z.div_pos; [lia|]. apply Z.pow_pos_nonneg; lia. }
    destruct (shr_m (iter_pos shr_1 n _)) as [|q|q]; [reflexivity| |lia].
    destruct (Z.leb_spec (e' + Z.pos n) (emax - prec)) as [_|H]; [reflexivity|].
    unfold emax, prec in H. lia.
  - cbn [shr_m]. destruct m' as [|q|q]; [reflexivity| |lia].
    destruct (Z.leb_spec e' (emax - prec)) as [_|H]; [reflexivity|].
    unfold emax, prec in H. lia.
Qed.

Lemma isFinite_spec (x : float) :
  Js.isFinite x = finite_sf (Prim2SF x).
Proof.
  unfold Js.isFinite, is_finite, is_nan, is_infinity.
  rewrite !FloatAxioms.eqb_spec, FloatAxioms.abs_spec.
  change (Prim2SF infinity) with (S754_infinity false).
  destruct (Prim2SF x) as [s|s| |s m e]; try reflexivity.
  - now destruct s.
  - cbn [SFabs]. unfold SFeqb. rewrite Dbl.compare_refl. reflexivity.
Qed.

(** Dividing a finite double by 100 does not overflow. *)
Lemma div_100_finite (z : float) :
  Js.isFinite z = true -> Js.isFinite (z / 100) = true.
Proof.
  rewrite !isFinite_spec, FloatAxioms.div_spec.
  change (Prim2SF 100) with (S754_finite false 7036874417766400 (-46)).
  destruct (Prim2SF z) as [s|s| |s m e] eqn:E; try discriminate; intros _.
  - reflexivity.
  - pose proof (Dbl.valid_exponent z s m e E) as V.
    pose proof (Prim2SF_valid z) as B. rewrite E in B.
    unfold valid_binary, bounded in B. apply andb_true_iff in B.
    destruct B as [_ B]. apply Z.leb_le in B. unfold emax, prec in B.
    pose proof (Dbl.digits_bounds m) as D.
    unfold SF64div, SFdiv, SFdiv_core_binary.
    change (Zdigits2 (Z.pos 7036874417766400)) with 53%Z.
    cbn [Zdigits2].
    set (e' := Z.min (fexp prec emax (Z.pos (digits2_pos m) + e - (53 + -46)))
                     (e - -46)).
    assert (He' : (e' <= 964 /\ e' <= e + 46)%Z).
    { subst e'. unfold fexp, emin, prec, emax. lia. }
    set (m' := match (e - -46 - e')%Z with
               | 0%Z => Z.pos m
               | Z.pos _ => Z.shiftl (Z.pos m) (e - -46 - e')
               | Z.neg _ => 0%Z
               end).
    assert (Hm' : m' = (Z.pos m * 2 ^ (e + 46 - e'))%Z).
    { subst m'. replace (e - -46 - e')%Z with (e + 46 - e')%Z by lia.
      destruct (e + 46 - e')%Z as [|n|n] eqn:En; [simpl; lia| |lia].
      apply Z.shiftl_mul_pow2. lia. }
    pose proof (Z.div_eucl_eq m' 7036874417766400 ltac:(lia)) as Q.
    pose proof (Z.mod_pos_bound m' 7036874417766400 ltac:(lia)) as R.
    unfold Z.modulo in R.
    destruct (Z.div_eucl m' 7036874417766400) as [q r].
    assert (P : (0 < 2 ^ (e + 46 - e'))%Z) by (apply Z.pow_pos_nonneg; lia).
    assert (Hq : (0 <= q)%Z) by nia.
    apply round_aux_finite; [exact Hq | lia |].
    assert (U : (m' < 2 ^ (1023 - e') * 2 ^ 52)%Z).
    { rewrite Hm', <- Z.pow_add_r by lia.
      apply Z.lt_le_trans
        with (2 ^ Z.pos (digits2_pos m) * 2 ^ (e + 46 - e'))%Z; [nia|].
      rewrite <- Z.pow_add_r by lia. apply Z.pow_le_mono_r; lia. }
    assert (P' : (0 < 2 ^ (1023 - e'))%Z) by (apply Z.pow_pos_nonneg; lia).
    nia.
Qed.

(** [Math.round] of a finite double is finite. *)
Lemma round_finite (y : float) :
  Js.isFinite y = true -> Js.isFinite (Js.round y) = true.
Proof.
  intros Hy. unfold Js.round.
  destruct (Prim2SF y) as [s|s| |s m e] eqn:E; try exact Hy.
  destruct (Z.leb_spec 0 e) as [He|He]; [exact Hy|].
  pose proof (Dbl.valid_exponent y s m e E) as V.
  pose proof (Dbl.digits_bounds m) as D.
  assert (Hm : (Z.pos m < 2 ^ 53)%Z).
  { assert (2 ^ Z.pos (digits2_pos m) <= 2 ^ 53)%Z
      by (apply Z.pow_le_mono_r; lia).
    lia. }
  pose proof (round_half_up (Js.signed s m) e He) as H. cbn zeta in H.
  assert (P : (2 <= 2 ^ (- e))%Z).
  { change 2%Z with (2 ^ 1)%Z at 1. apply Z.pow_le_mono_r; lia. }
  assert (S : (- Z.pos m <= Js.signed s m <= Z.pos m)%Z)
    by (destruct s; cbn [Js.signed]; lia).
  assert (Hn : (Z.abs (Z.shiftl (Js.signed s m + Z.shiftl 1 (- e - 1)) e)
                < 2 ^ 53)%Z) by nia.
  destruct (Z.shiftl (Js.signed s m + Z.shiftl 1 (- e - 1)) e) as [|q|q].
  - now destruct s.
  - cbn [Z.eqb Js.of_int]. rewrite isFinite_spec.
    destruct (Dbl.of_uint63_small q) as [mz [Hmz _]]; [lia|].
    now rewrite Hmz.
  - cbn [Z.eqb Js.of_int Z.opp]. rewrite isFinite_spec, FloatAxioms.opp_spec.
    destruct (Dbl.of_uint63_small q) as [mz [Hmz _]]; [lia|].
    now rewrite Hmz.
Qed.

(** A field is finite exactly when the scaled value [round2] forms is. *)
Lemma round2_finite (x : float) :
  Js.isFinite (round2 x) = Js.isFinite ((x + Js.EPSILON) * 100).
Proof.
  unfold round2.
  destruct (Js.isFinite ((x + Js.EPSILON) * 100)) eqn:F.
  - now apply div_100_finite, round_finite.
  - revert F. generalize ((x + Js.EPSILON) * 100) as y. intros y.
    rewrite !isFinite_spec, FloatAxioms.div_spec. unfold Js.round.
    change (Prim2SF 100) with (S754_finite false 7036874417766400 (-46)).
    destruct (Prim2SF y) as [s|s| |s m e] eqn:E; try discriminate; intros _;
      rewrite E; reflexivity.
Qed.

End Overflow.

(** * The loop *)

(** The loop counter: the doubles of 1..61 are incremented and compared
    as the integers are. *)
Lemma counter_table :
  forallb (fun j =>
             Leibniz.eqb (Js.of_int (Z.of_nat j) + 1) (Js.of_int (Z.of_nat (S j)))
             && forallb (fun n =>
                           Bool.eqb (Js.of_int (Z.of_nat j) <=? Js.of_int (Z.of_nat n))
                                    (Nat.leb j n))
                        (seq 1 60))
          (seq 1 61) = true.
Proof. vm_compute. reflexivity. Qed.

Lemma counter_succ (j : nat) :
  (1 <= j <= 61)%nat ->
  Js.of_int (Z.of_nat j) + 1 = Js.of_int (Z.of_nat (S j)).
Proof.
  intros Hj. pose proof counter_table as T. rewrite forallb_forall in T.
  specialize (T j). rewrite andb_true_iff in T.
  apply FloatAxioms.Leibniz.eqb_spec, T, in_seq. lia.
Qed.

Lemma counter_leb (j n : nat) :
  (1 <= j <= 61)%nat -> (1 <= n <= 60)%nat ->
  (Js.of_int (Z.of_nat j) <=? Js.of_int (Z.of_nat n)) = Nat.leb j n.
Proof.
  intros Hj Hn. pose proof counter_table as T. rewrite forallb_forall in T.
  specialize (T j). rewrite andb_true_iff in T.
  destruct T as [_ T]; [apply in_seq; lia|].
  rewrite forallb_forall in T. apply Bool.eqb_prop, T, in_seq. lia.
Qed.

Section Loop.

Variable c : consts.

Lemma state_at_shift (st : locals) (i : nat) :
  state_at c (advance c st) i = advance c (state_at c st i).
Proof.
  induction i as [|i IH]; simpl; [reflexivity|]. now rewrite IH.
Qed.

Lemma emitted_length (j : nat) (st : locals) (n : nat) :
  List.length (emitted c j st n) = n.
Proof.
  revert j st. induction n as [|n IH]; intros j st; simpl; [reflexivity|].
  now rewrite IH.
Qed.

Lemma emitted_nth (n : nat) :
  forall (j : nat) (st : locals) (i : nat),
    (i < n)%nat ->
    nth_error (emitted c j st n) i
    = Some (row c (Js.of_int (Z.of_nat (j + i))) (state_at c st i)).
Proof.
  induction n as [|n IH]; intros j st i Hi; [lia|].
  destruct i as [|i]; simpl.
  - now rewrite Nat.add_0_r.
  - rewrite IH by lia. rewrite state_at_shift.
    now replace (S j + i)%nat with (j + S i)%nat by lia.
Qed.

(** [years] is the double of an integer [N] between 1 and 60. *)
Variable N : nat.
Hypothesis N_range : (1 <= N <= 60)%nat.
Hypothesis years_N : years c = Js.of_int (Z.of_nat N).

(** From year [j], the loop pushes the [n] rows up to year [N] and stops
    on its condition, provided it has fuel for them. *)
Lemma for_loop_emitted (n : nat) :
  forall (fuel j : nat) (st : locals) (rows : list YearRow.t),
    (1 <= j)%nat -> (j + n = N + 1)%nat -> (n <= fuel)%nat ->
    for_loop fuel c (Js.of_int (Z.of_nat j)) st rows
    = rows ++ emitted c j st n.
Proof.
  induction n as [|n IH]; intros fuel j st rows Hj Hn Hf.
  - simpl. rewrite app_nil_r. destruct fuel as [|fuel]; simpl; [reflexivity|].
    rewrite years_N, counter_leb by lia.
    destruct (Nat.leb_spec j N); [lia | reflexivity].
  - destruct fuel as [|fuel]; [lia|]. simpl.
    rewrite years_N, counter_leb by lia.
    destruct (Nat.leb_spec j N); [|lia].
    rewrite counter_succ by lia. rewrite (IH fuel (S j)) by lia.
    now rewrite <- app_assoc.
Qed.

End Loop.

(** [toFinite] returns a finite double whenever the fallback is one. *)
Lemma toFinite_finite (v : value) (fb : float) :
  Js.isFinite fb = true -> Js.isFinite (toFinite v fb) = true.
Proof.
  intros Hfb. unfold toFinite.
  destruct (Js.isFinite (Js.Number v)) eqn:E; assumption.
Qed.

Lemma horizon_range (p : Params.t) : (1 <= horizon p <= 60)%Z.
Proof. unfold horizon, clamp. lia. Qed.

Lemma iterations_range (p : Params.t) : (1 <= iterations p <= 60)%nat.
Proof. unfold iterations. pose proof (horizon_range p). lia. Qed.

(** The loop bound the engine computes is the double of [horizon]. *)
Lemma years_horizon (p : Params.t) :
  years (constants p) = Js.of_int (horizon p).
Proof.
  unfold constants; cbn [years]. apply Horizon.clamped.
  now apply toFinite_finite.
Qed.

Lemma years_iterations (p : Params.t) :
  years (constants p) = Js.of_int (Z.of_nat (iterations p)).
Proof.
  rewrite years_horizon. unfold iterations.
  pose proof (horizon_range p). now rewrite Z2Nat.id by lia.
Qed.

(** The loop ends on its own condition: any fuel from [iterations p] up,
    and so the 60 of [buildRows], gives the same rows. *)
Lemma for_loop_fuel (p : Params.t) (fuel : nat) :
  (iterations p <= fuel)%nat ->
  for_loop fuel (constants p) 1 (init p) []
  = emitted (constants p) 1 (init p) (iterations p).
Proof.
  intros Hf. pose proof (iterations_range p) as R.
  change 1 with (Js.of_int (Z.of_nat 1)).
  rewrite (for_loop_emitted (constants p) (iterations p) R (years_iterations p)
             (iterations p)) by lia.
  reflexivity.
Qed.

Lemma buildRows_emitted (p : Params.t) :
  buildRows p = emitted (constants p) 1 (init p) (iterations p).
Proof.
  unfold buildRows. apply for_loop_fuel.
  pose proof (iterations_range p). lia.
Qed.

Lemma buildRows_length (p : Params.t) :
  List.length (buildRows p) = iterations p.
Proof. rewrite buildRows_emitted. apply emitted_length. Qed.

(** Row [i] (counted from 0) is the row of year [i + 1], built from the
    running variables at the start of iteration [i]. *)
Lemma buildRows_nth (p : Params.t) (i : nat) :
  (i < iterations p)%nat ->
  nth_error (buildRows p) i
  = Some (row (constants p) (Js.of_int (Z.of_nat (S i))) (running p i)).
Proof.
  intros Hi. rewrite buildRows_emitted, emitted_nth by exact Hi. reflexivity.
Qed.

Lemma buildRows_nth_inv (p : Params.t) (i : nat) (w : YearRow.t) :
  nth_error (buildRows p) i = Some w ->
  (i < iterations p)%nat
  /\ w = row (constants p) (Js.of_int (Z.of_nat (S i))) (running p i).
Proof.
  intros H.
  assert (Hi : (i < iterations p)%nat).
  { rewrite <- buildRows_length. apply nth_error_Some. congruence. }
  split; [exact Hi|]. rewrite buildRows_nth in H by exact Hi. congruence.
Qed.

(** Replaces a row found in the output by the row the loop built. *)
Ltac row_of H :=
  apply buildRows_nth_inv in H;
  let E := fresh "E" in destruct H as [_ E]; rewrite E; clear E.

(** * Signs of doubles

    What [x < 0] being false says about the result of an operation. *)

Module Sign.

Lemma negative_spec (x : float) :
  negative x = negb (nonneg (Prim2SF x)).
Proof.
  unfold negative. rewrite FloatAxioms.ltb_spec.
  change (Prim2SF 0) with (S754_zero false).
  destruct (Prim2SF x) as [s|s| |s m e]; try destruct s; reflexivity.
Qed.

Lemma not_negative_iff (x : float) :
  negative x = false <-> nonneg (Prim2SF x) = true.
Proof.
  rewrite negative_spec. destruct (nonneg (Prim2SF x)); simpl; intuition congruence.
Qed.

Lemma round_aux_nonneg (m e : Z) (l : location) :
  nonneg (binary_round_aux prec emax false m e l) = true.
Proof.
  unfold binary_round_aux.
  destruct (shr_fexp prec emax m e l) as [mrs' e'].
  destruct (shr_fexp prec emax _ e' loc_Exact) as [mrs'' e''].
  destruct (shr_m mrs''); try reflexivity.
  destruct (Z.leb e'' (Z.sub emax prec)); reflexivity.
Qed.

Lemma normalize_nonneg (m e : Z) :
  (0 <= m)%Z -> nonneg (binary_normalize prec emax m e false) = true.
Proof.
  intros Hm. destruct m as [|q|q]; simpl; [reflexivity| |lia].
  unfold binary_round. destruct (shl_align _ _ _) as [mz ez]. apply round_aux_nonneg.
Qed.

Lemma add_nonneg (a b : spec_float) :
  nonneg a = true -> nonneg b = true -> nonneg (SF64add a b) = true.
Proof.
  destruct a as [sa|sa| |sa ma ea], b as [sb|sb| |sb mb eb];
    simpl; intros Ha Hb; try reflexivity; try assumption;
    try (destruct sa; destruct sb; simpl in *; congruence).
  destruct sa; [discriminate|]. destruct sb; [discriminate|].
  unfold SF64add, SFadd. apply normalize_nonneg. cbn [cond_Zopp]. lia.
Qed.

Lemma mul_nonneg (a b : spec_float) :
  nonneg a = true -> nonneg b = true -> nonneg (SF64mul a b) = true.
Proof.
  destruct a as [sa|sa| |sa ma ea], b as [sb|sb| |sb mb eb];
    simpl; intros Ha Hb; try reflexivity;
    try (destruct sa; destruct sb; simpl in *; congruence).
  destruct sa; [discriminate|]. destruct sb; [discriminate|].
  unfold SF64mul, SFmul. apply round_aux_nonneg.
Qed.

Lemma div_nonneg (a b : spec_float) :
  nonneg a = true -> positive_finite b = true -> nonneg (SF64div a b) = true.
Proof.
  destruct b as [sb|sb| |sb mb eb]; try discriminate.
  destruct sb; [discriminate|]. intros Ha _.
  destruct a as [sa|sa| |sa ma ea]; simpl in *; try reflexivity;
    try (destruct sa; simpl in *; congruence).
  destruct sa; [discriminate|].
  unfold SF64div, SFdiv.
  destruct (SFdiv_core_binary _ _ _ _ _ _) as [[mz ez] lz]. apply round_aux_nonneg.
Qed.

Lemma of_uint63_nonneg (n : int) : nonneg (Prim2SF (of_uint63 n)) = true.
Proof.
  rewrite FloatAxioms.of_uint63_spec. apply normalize_nonneg.
  pose proof (Uint63.to_Z_bounded n). lia.
Qed.

(** [Math.round] of a double that is not negative is not negative. *)
Lemma round_nonneg (x : float) :
  nonneg (Prim2SF x) = true -> nonneg (Prim2SF (Js.round x)) = true.
Proof.
  unfold Js.round. intros Hx.
  destruct (Prim2SF x) as [s|s| |s m e] eqn:E; try (rewrite E; exact Hx).
  destruct (0 <=? e)%Z; [rewrite E; exact Hx|].
  destruct s; [discriminate|]. cbn [Js.signed].
  assert (Hn : (0 <= Z.shiftl (Z.pos m + Z.shiftl 1 (- e - 1)) e)%Z).
  { apply Z.shiftl_nonneg.
    assert (0 <= Z.shiftl 1 (- e - 1))%Z by (apply Z.shiftl_nonneg; lia).
    lia. }
  destruct (Z.shiftl (Z.pos m + Z.shiftl 1 (- e - 1)) e) as [|q|q] eqn:En.
  - reflexivity.
  - cbn [Z.eqb Js.of_int]. apply of_uint63_nonneg.
  - lia.
Qed.

(** The step the statements use: [round2] keeps [x < 0] false. *)
Lemma round2_not_negative (x : float) :
  negative x = false -> negative (round2 x) = false.
Proof.
  rewrite !not_negative_iff. intros Hx. unfold round2.
  rewrite FloatAxioms.div_spec. apply div_nonneg; [|reflexivity].
  apply round_nonneg. rewrite FloatAxioms.mul_spec. apply mul_nonneg; [|reflexivity].
  rewrite FloatAxioms.add_spec. apply add_nonneg; [exact Hx | reflexivity].
Qed.

(** The floor leaves nothing negative. *)
Lemma capitalEnd_not_negative (c : consts) (st : locals) :
  negative (capitalEnd c st) = false.
Proof.
  unfold capitalEnd.
  destruct (capitalEndRaw c st <? 0) eqn:E; [reflexivity | exact E].
Qed.

End Sign.

(** * Sizes: the recurrence stays in range *)

Module Size.

Lemma running_step (p : Params.t) (i : nat) :
  running p (S i) = advance (constants p) (running p i).
Proof. reflexivity. Qed.

Lemma within_sf_mono (E E' : Z) (f : spec_float) :
  (E <= E')%Z -> within_sf E f = true -> within_sf E' f = true.
Proof.
  intros H. destruct f as [s|s| |s m e]; simpl; auto.
  rewrite !Z.leb_le. lia.
Qed.

Lemma within_sf_finite (E : Z) (f : spec_float) :
  within_sf E f = true -> finite_sf f = true.
Proof. now destruct f. Qed.

(** [shr_fexp] keeps a value below [2^E] below [2^E]. *)
Lemma shr_fexp_within (E m e : Z) (l : location) :
  (0 <= m)%Z -> (e <= E)%Z -> (0 <= E)%Z -> (m < 2 ^ (E - e))%Z ->
  let '(mrs, e') := shr_fexp prec emax m e l in
  (0 <= shr_m mrs)%Z /\ (e' <= E)%Z /\ (shr_m mrs < 2 ^ (E - e'))%Z.
Proof.
  intros Hm He HE Hb. unfold shr_fexp.
  pose proof (Overflow.Zdigits2_le m (E - e) (conj Hm Hb) ltac:(lia)) as Hd.
  assert (M : shr_m (shr_record_of_loc m l) = m)
    by (destruct l as [|[| |]]; reflexivity).
  unfold shr.
  destruct (fexp prec emax (Zdigits2 m + e) - e)%Z as [|n|n] eqn:En;
    try (rewrite M; repeat split; assumption).
  assert (Hn : (e + Z.pos n <= E)%Z).
  { unfold fexp, emin, prec, emax in En. lia. }
  rewrite Overflow.iter_shr_1 by (rewrite M; exact Hm). rewrite M.
  assert (P : (0 < 2 ^ Z.pos n)%Z) by (apply Z.pow_pos_nonneg; lia).
  split; [apply Z.div_pos; lia|]. split; [lia|].
  apply Z.div_lt_upper_bound; [exact P|].
  rewrite <- Z.pow_add_r by lia.
  now replace (Z.pos n + (E - (e + Z.pos n)))%Z with (E - e)%Z by lia.
Qed.

(** Rounding a value below [2^E] gives at most [2^E]. *)
Lemma round_aux_within (E : Z) (s : bool) (m e : Z) (l : location) :
  (0 <= m)%Z -> (e <= E)%Z -> (0 <= E <= 970)%Z -> (m < 2 ^ (E - e))%Z ->
  within_sf (E + 1) (binary_round_aux prec emax s m e l) = true.
Proof.
  intros Hm He HE Hb. unfold binary_round_aux.
  pose proof (shr_fexp_within E m e l Hm He ltac:(lia) Hb) as B1.
  destruct (shr_fexp prec emax m e l) as [mrs' e'].
  destruct B1 as [B1 [B2 B3]].
  pose proof (Overflow.round_nearest_even_bound (shr_m mrs')
                (loc_of_shr_record mrs')) as R.
  set (m' := round_nearest_even (shr_m mrs') (loc_of_shr_record mrs')) in *.
  assert (Hb' : (m' < 2 ^ (E + 1 - e'))%Z).
  { replace (E + 1 - e')%Z with (Z.succ (E - e')) by lia.
    rewrite Z.pow_succ_r by lia. lia. }
  pose proof (shr_fexp_within (E + 1) m' e' loc_Exact ltac:(lia) ltac:(lia)
                ltac:(lia) Hb') as B.
  destruct (shr_fexp prec emax m' e' loc_Exact) as [mrs'' e''].
  destruct B as [C1 [C2 C3]].
  destruct (shr_m mrs'') as [|q|q] eqn:Eq; [reflexivity| |lia].
  destruct (Z.leb_spec e'' (emax - prec)) as [_|H];
    [|unfold emax, prec in H; lia].
  cbn [within_sf]. apply Z.leb_le.
  pose proof (Overflow.Zdigits2_le (Z.pos q) (E + 1 - e'')
                ltac:(lia) ltac:(lia)) as D.
  cbn [Zdigits2] in D. lia.
Qed.

Lemma shl_align_spec (m : positive) (e t : Z) :
  let '(m', e') := shl_align m e t in
  (e' <= e)%Z /\ Z.pos m' = (Z.pos m * 2 ^ (e - e'))%Z
  /\ ((t <= e)%Z -> e' = t).
Proof.
  unfold shl_align. destruct (t - e)%Z as [|d|d] eqn:Ed.
  - rewrite Z.sub_diag. split; [lia|]. split; [simpl; lia | lia].
  - rewrite Z.sub_diag. split; [lia|]. split; [simpl; lia | lia].
  - split; [lia|]. split; [|reflexivity].
    rewrite Dbl.iter_xO. f_equal. f_equal. lia.
Qed.

Lemma mantissa_lt (E : Z) (m : positive) (e : Z) :
  (Z.pos (digits2_pos m) + e <= E)%Z ->
  (e < E)%Z /\ (Z.pos m < 2 ^ (E - e))%Z.
Proof.
  intros H. pose proof (Dbl.digits_bounds m) as B. split; [lia|].
  apply Z.lt_le_trans with (2 ^ Z.pos (digits2_pos m))%Z; [lia|].
  apply Z.pow_le_mono_r; lia.
Qed.

Lemma normalize_within (E m e : Z) :
  (e <= E)%Z -> (0 <= E <= 970)%Z -> (Z.abs m < 2 ^ (E - e))%Z ->
  within_sf (E + 1) (binary_normalize prec emax m e false) = true.
Proof.
  intros He HE Hb.
  assert (G : forall s q, (Z.pos q < 2 ^ (E - e))%Z ->
              within_sf (E + 1) (binary_round prec emax s q e) = true).
  { intros s q Hq. unfold binary_round.
    pose proof (shl_align_spec q e (fexp prec emax (Z.pos (digits2_pos q) + e)))
      as A.
    destruct (shl_align q e _) as [mz ez]. destruct A as [A1 [A2 _]].
    apply round_aux_within; try lia.
    rewrite A2.
    replace (E - ez)%Z with ((E - e) + (e - ez))%Z by lia.
    rewrite Z.pow_add_r by lia.
    assert (0 < 2 ^ (e - ez))%Z by (apply Z.pow_pos_nonneg; lia).
    nia. }
  destruct m as [|q|q]; cbn [binary_normalize]; [reflexivity| |];
    apply G; simpl in Hb; lia.
Qed.

Lemma add_sf (E : Z) (a b : spec_float) :
  (0 <= E <= 969)%Z ->
  within_sf E a = true -> within_sf E b = true ->
  within_sf (E + 2) (SF64add a b) = true
  /\ within_sf (E + 2) (SF64sub a b) = true.
Proof.
  intros HE Ha Hb.
  destruct a as [sa|sa| |sa ma ea], b as [sb|sb| |sb mb eb];
    try discriminate; unfold SF64add, SF64sub, SFadd, SFsub.
  - split; destruct sa, sb; reflexivity.
  - cbn [within_sf] in *. rewrite Z.leb_le in *. lia.
  - cbn [within_sf] in *. rewrite Z.leb_le in *. lia.
  - cbn [within_sf] in Ha, Hb. apply Z.leb_le in Ha, Hb.
    destruct (mantissa_lt E ma ea Ha) as [A1 A2].
    destruct (mantissa_lt E mb eb Hb) as [B1 B2].
    set (ez := Z.min ea eb).
    pose proof (shl_align_spec ma ea ez) as SA.
    pose proof (shl_align_spec mb eb ez) as SB.
    destruct (shl_align ma ea ez) as [ma' ea'].
    destruct (shl_align mb eb ez) as [mb' eb'].
    destruct SA as [_ [SA SA']], SB as [_ [SB SB']]. cbn [fst].
    rewrite SA' in SA by (subst ez; lia). rewrite SB' in SB by (subst ez; lia).
    assert (PA : (Z.pos ma' < 2 ^ (E - ez))%Z).
    { rewrite SA. replace (E - ez)%Z with ((E - ea) + (ea - ez))%Z by lia.
      rewrite Z.pow_add_r by (subst ez; lia).
      assert (0 < 2 ^ (ea - ez))%Z by (apply Z.pow_pos_nonneg; subst ez; lia).
      nia. }
    assert (PB : (Z.pos mb' < 2 ^ (E - ez))%Z).
    { rewrite SB. replace (E - ez)%Z with ((E - eb) + (eb - ez))%Z by lia.
      rewrite Z.pow_add_r by (subst ez; lia).
      assert (0 < 2 ^ (eb - ez))%Z by (apply Z.pow_pos_nonneg; subst ez; lia).
      nia. }
    assert (P2 : (2 ^ (E + 1 - ez) = 2 * 2 ^ (E - ez))%Z).
    { replace (E + 1 - ez)%Z with (Z.succ (E - ez)) by lia.
      apply Z.pow_succ_r. subst ez. lia. }
    replace (E + 2)%Z with (E + 1 + 1)%Z by lia.
    split; apply normalize_within; try (subst ez; lia);
      rewrite P2; destruct sa, sb; cbn [cond_Zopp]; lia.
Qed.

Lemma mul_sf (E1 E2 : Z) (a b : spec_float) :
  (0 <= E1 + E2 <= 970)%Z ->
  within_sf E1 a = true -> within_sf E2 b = true ->
  within_sf (E1 + E2 + 1) (SF64mul a b) = true.
Proof.
  intros HE Ha Hb.
  destruct a as [sa|sa| |sa ma ea], b as [sb|sb| |sb mb eb];
    try discriminate; unfold SF64mul, SFmul; try reflexivity.
  cbn [within_sf] in Ha, Hb. apply Z.leb_le in Ha, Hb.
  destruct (mantissa_lt E1 ma ea Ha) as [A1 A2].
  destruct (mantissa_lt E2 mb eb Hb) as [B1 B2].
  apply round_aux_within; try lia.
  rewrite Pos2Z.inj_mul.
  replace (E1 + E2 - (ea + eb))%Z with ((E1 - ea) + (E2 - eb))%Z by lia.
  rewrite Z.pow_add_r by lia. nia.
Qed.

(** Dividing by 100 takes six bits off. *)
Lemma div_100_sf (E : Z) (a : spec_float) :
  (6 <= E <= 970)%Z -> within_sf E a = true ->
  within_sf (E - 5)
    (SF64div a (S754_finite false 7036874417766400 (-46))) = true.
Proof.
  intros HE Ha. destruct a as [s|s| |s m e]; try discriminate;
    unfold SF64div, SFdiv; [reflexivity|].
  cbn [within_sf] in Ha. apply Z.leb_le in Ha.
  pose proof (Dbl.digits_bounds m) as D.
  unfold SFdiv_core_binary.
  change (Zdigits2 (Z.pos 7036874417766400)) with 53%Z.
  cbn [Zdigits2].
  set (e' := Z.min (fexp prec emax (Z.pos (digits2_pos m) + e - (53 + -46)))
                   (e - -46)).
  assert (He' : (e' <= E - 6 /\ e' <= e + 46)%Z).
  { subst e'. unfold fexp, emin, prec, emax. lia. }
  set (m' := match (e - -46 - e')%Z with
             | 0%Z => Z.pos m
             | Z.pos _ => Z.shiftl (Z.pos m) (e - -46 - e')
             | Z.neg _ => 0%Z
             end).
  assert (Hm' : m' = (Z.pos m * 2 ^ (e + 46 - e'))%Z).
  { subst m'. replace (e - -46 - e')%Z with (e + 46 - e')%Z by lia.
    destruct (e + 46 - e')%Z as [|n|n] eqn:En; [simpl; lia| |lia].
    apply Z.shiftl_mul_pow2. lia. }
  pose proof (Z.div_eucl_eq m' 7036874417766400 ltac:(lia)) as Q.
  pose proof (Z.mod_pos_bound m' 7036874417766400 ltac:(lia)) as R.
  unfold Z.modulo in R.
  destruct (Z.div_eucl m' 7036874417766400) as [q r].
  assert (P : (0 < 2 ^ (e + 46 - e'))%Z) by (apply Z.pow_pos_nonneg; lia).
  assert (Hq : (0 <= q)%Z) by nia.
  replace (E - 5)%Z with (E - 6 + 1)%Z by lia.
  apply round_aux_within; try lia.
  assert (U : (m' < 2 ^ (E - 6 - e') * 2 ^ 52)%Z).
  { rewrite Hm', <- Z.pow_add_r by lia.
    apply Z.lt_le_trans
      with (2 ^ Z.pos (digits2_pos m) * 2 ^ (e + 46 - e'))%Z; [nia|].
    rewrite <- Z.pow_add_r by lia. apply Z.pow_le_mono_r; lia. }
  assert (P' : (0 < 2 ^ (E - 6 - e'))%Z) by (apply Z.pow_pos_nonneg; lia).
  nia.
Qed.

(** The same on doubles. *)

Lemma within_up (E E' : Z) (x : float) :
  within E x = true -> (E <= E')%Z -> within E' x = true.
Proof. intros H L. exact (within_sf_mono E E' _ L H). Qed.

Lemma within_add (E : Z) (a b : float) :
  within E a = true -> within E b = true -> (0 <= E <= 969)%Z ->
  within (E + 2) (a + b) = true.
Proof.
  intros Ha Hb HE. unfold within. rewrite FloatAxioms.add_spec.
  now apply add_sf.
Qed.

Lemma within_sub (E : Z) (a b : float) :
  within E a = true -> within E b = true -> (0 <= E <= 969)%Z ->
  within (E + 2) (a - b) = true.
Proof.
  intros Ha Hb HE. unfold within. rewrite FloatAxioms.sub_spec.
  now apply add_sf.
Qed.

Lemma within_mul (E1 E2 : Z) (a b : float) :
  within E1 a = true -> within E2 b = true -> (0 <= E1 + E2 <= 970)%Z ->
  within (E1 + E2 + 1) (a * b) = true.
Proof.
  intros Ha Hb HE. unfold within. rewrite FloatAxioms.mul_spec.
  now apply mul_sf.
Qed.

Lemma within_div_100 (E : Z) (a : float) :
  within E a = true -> (6 <= E <= 970)%Z -> within (E - 5) (a / 100) = true.
Proof.
  intros Ha HE. unfold within. rewrite FloatAxioms.div_spec.
  change (Prim2SF 100) with (S754_finite false 7036874417766400 (-46)).
  now apply div_100_sf.
Qed.

Lemma within_isFinite (E : Z) (x : float) :
  within E x = true -> Js.isFinite x = true.
Proof.
  intros H. rewrite Overflow.isFinite_spec. exact (within_sf_finite E _ H).
Qed.

(** A value below [2^E], [E <= 950], is rounded to a finite field. *)
Lemma within_round2 (E : Z) (x : float) :
  within E x = true -> (0 <= E <= 950)%Z -> Js.isFinite (round2 x) = true.
Proof.
  intros Hx HE. rewrite Overflow.round2_finite.
  apply (within_isFinite (E + 2 + 7 + 1)), within_mul; [| reflexivity | lia].
  apply within_add; [exact Hx | | lia].
  apply (within_up (-51)); [reflexivity | lia].
Qed.

(** One year: from running incomes below [2^I] and a capital below [2^C],
    with rates below [2^5] and a factor below [2^10]. *)
Section Year.

Variables (c : consts) (st : locals) (I C : Z).

Hypothesis gIncome_5 : within 5 (gIncome c) = true.
Hypothesis r_5 : within 5 (r c) = true.
Hypothesis infl_5 : within 5 (infl c) = true.
Hypothesis k_10 : within 10 (k c) = true.
Hypothesis I_range : (0 <= I <= 870)%Z.
Hypothesis C_range : (0 <= C <= 870)%Z.
Hypothesis income_I : within I (incomeMonthly st) = true.
Hypothesis expenses_I : within I (expensesMonthly st) = true.
Hypothesis capital_C : within C (capitalStart st) = true.

Lemma deltaMonthly_within : within (I + 2) (deltaMonthly st) = true.
Proof. apply within_sub; [assumption | assumption | lia]. Qed.

Lemma contribution_within : within (I + 7) (contribution st) = true.
Proof.
  replace (I + 7)%Z with (I + 2 + 4 + 1)%Z by lia.
  apply within_mul; [apply deltaMonthly_within | reflexivity | lia].
Qed.

Lemma interestOnStart_within : within (C + 6) (interestOnStart c st) = true.
Proof.
  replace (C + 6)%Z with (C + 5 + 1)%Z by lia.
  apply within_mul; [assumption | assumption | lia].
Qed.

Lemma interestOnContribution_within :
  within (I + 24) (interestOnContribution c st) = true.
Proof.
  replace (I + 24)%Z with (I + 7 + 5 + 1 + 10 + 1)%Z by lia.
  apply within_mul; [|assumption | lia].
  apply within_mul; [apply contribution_within | assumption | lia].
Qed.

Lemma capitalEndRaw_within :
  within (Z.max (C + 12) (I + 30)) (capitalEndRaw c st) = true.
Proof.
  set (M := Z.max (C + 6) (I + 24)).
  replace (Z.max (C + 12) (I + 30)) with (M + 2 + 2 + 2)%Z by (subst M; lia).
  unfold capitalEndRaw.
  apply within_add; [|apply (within_up (I + 24)); [apply interestOnContribution_within|]
              |]; try (subst M; lia).
  apply within_add; [|apply (within_up (C + 6)); [apply interestOnStart_within|]
              |]; try (subst M; lia).
  apply within_add; [apply (within_up C); [assumption|]
             |apply (within_up (I + 7)); [apply contribution_within|]
             |]; subst M; lia.
Qed.

Lemma capitalEnd_within :
  within (Z.max (C + 12) (I + 30)) (capitalEnd c st) = true.
Proof.
  unfold capitalEnd. cbv zeta.
  destruct (capitalEndRaw c st <? 0); [reflexivity | apply capitalEndRaw_within].
Qed.

Lemma quantities_within :
  forallb (within (Z.max (C + 12) (I + 30))) (quantities c st) = true.
Proof.
  unfold quantities. cbn [forallb].
  rewrite (within_up I _ (incomeMonthly st)), (within_up I _ (expensesMonthly st)),
    (within_up _ _ _ deltaMonthly_within), (within_up _ _ _ contribution_within),
    (within_up C _ (capitalStart st)), (within_up _ _ _ interestOnStart_within),
    (within_up _ _ _ interestOnContribution_within), capitalEnd_within;
    try assumption; try lia; reflexivity.
Qed.

Lemma advance_within :
  within (I + 8) (incomeMonthly (advance c st)) = true
  /\ within (I + 8) (expensesMonthly (advance c st)) = true
  /\ within (Z.max (C + 12) (I + 30)) (capitalStart (advance c st)) = true.
Proof.
  cbn [advance incomeMonthly expensesMonthly capitalStart].
  replace (I + 8)%Z with (I + (5 + 2) + 1)%Z by lia.
  split; [|split; [|apply capitalEnd_within]].
  - apply within_mul; [assumption | | lia].
    apply within_add; [reflexivity | assumption | lia].
  - apply within_mul; [assumption | | lia].
    apply within_add; [reflexivity | assumption | lia].
Qed.

End Year.

(** [Math.abs(x) < 2^E] on doubles is [within E]. *)
Lemma below_within (E : Z) (b x : float) :
  Prim2SF b = S754_finite false 4503599627370496 (E - 52) ->
  below b x = true -> within E x = true.
Proof.
  intros Hb H. unfold below in H.
  rewrite FloatAxioms.ltb_spec, FloatAxioms.abs_spec, Hb in H.
  unfold within. pose proof (Dbl.valid_exponent x) as V.
  destruct (Prim2SF x) as [s|s| |s m e]; try discriminate H; [reflexivity|].
  specialize (V s m e eq_refl). cbn [within_sf]. apply Z.leb_le.
  unfold SFltb, SFabs, SFcompare in H.
  destruct (Z.compare_spec e (E - 52)) as [L|L|L]; [|lia|discriminate H].
  rewrite Pos.compare_cont_spec in H. cbn [Pos.switch_Eq] in H.
  destruct (Pos.compare_spec m 4503599627370496) as [_|M|_];
    try discriminate H.
  destruct (Z.le_gt_cases (Z.pos (digits2_pos m)) 52) as [D|D];
    [clear M V H; lia|].
  exfalso. clear V H L.
  assert (P : (2 ^ 52 <= 2 ^ (Z.pos (digits2_pos m) - 1))%Z)
    by (clear M; apply Z.pow_le_mono_r; lia).
  destruct (Dbl.digits_bounds m) as [B _].
  apply Pos2Z.pos_lt_pos in M.
  change (Z.pos 4503599627370496) with (2 ^ 52)%Z in M.
  apply (Z.lt_irrefl (Z.pos m)).
  eapply Z.lt_le_trans; [exact M|]. eapply Z.le_trans; [exact P | exact B].
Qed.

(** The sizes of the constants of a record of ordinary size. *)
Lemma ordinary_spec (p : Params.t) :
  ordinary p = true ->
  (within 64 (capitalStart (init p)) = true
   /\ within 64 (incomeMonthly (init p)) = true
   /\ within 64 (expensesMonthly (init p)) = true)
  /\ within 5 (gIncome (constants p)) = true
  /\ within 5 (r (constants p)) = true
  /\ within 5 (infl (constants p)) = true
  /\ within 10 (k (constants p)) = true.
Proof.
  unfold ordinary. rewrite !andb_true_iff.
  intros [[[[[[H1 H2] H3] H4] H5] H6] H7].
  apply (below_within 64) in H1, H2, H3; try reflexivity.
  apply (below_within 10) in H4, H5, H6, H7; try reflexivity.
  split; [now repeat split|].
  unfold constants at 1 2 3. cbn [gIncome r infl]. unfold toPct.
  change 5%Z with (10 - 5)%Z.
  repeat split; try (apply within_div_100; [assumption | lia]). exact H7.
Qed.

(** Year by year the running incomes gain at most 8 bits and the capital at
    most 12. *)
Lemma running_within (p : Params.t) (i : nat) :
  ordinary p = true -> (i <= 60)%nat ->
  within (64 + 8 * Z.of_nat i) (incomeMonthly (running p i)) = true
  /\ within (64 + 8 * Z.of_nat i) (expensesMonthly (running p i)) = true
  /\ within (94 + 12 * Z.of_nat i) (capitalStart (running p i)) = true.
Proof.
  intros H Hi. destruct (ordinary_spec p H) as [[S1 [S2 S3]] [G [R [F K]]]].
  induction i as [|i IH].
  - repeat split; [exact S2 | exact S3 | apply (within_up 64); [exact S1 | lia]].
  - destruct (IH ltac:(lia)) as [A [B D]].
    pose proof (advance_within (constants p) (running p i)
                  (64 + 8 * Z.of_nat i) (94 + 12 * Z.of_nat i)
                  G R F K ltac:(lia) ltac:(lia) A B D) as [A' [B' D']].
    rewrite running_step.
    repeat split; [apply (within_up _ _ _ A') | apply (within_up _ _ _ B')
                   | apply (within_up _ _ _ D')]; lia.
Qed.

(** Every field of every row of a record of ordinary size is finite. *)
Lemma row_finite (p : Params.t) (i : nat) (y : float) :
  ordinary p = true -> (i < 60)%nat ->
  forallb Js.isFinite (numeric_fields (row (constants p) y (running p i)))
  = true.
Proof.
  intros H Hi. destruct (ordinary_spec p H) as [_ [G [R [F K]]]].
  destruct (running_within p i H ltac:(lia)) as [A [B D]].
  pose proof (quantities_within (constants p) (running p i)
                (64 + 8 * Z.of_nat i) (94 + 12 * Z.of_nat i)
                R K ltac:(lia) ltac:(lia) A B D) as Q.
  change (numeric_fields (row (constants p) y (running p i)))
    with (map round2 (quantities (constants p) (running p i))).
  rewrite forallb_forall in Q. apply forallb_forall.
  intros x Hx. apply in_map_iff in Hx. destruct Hx as [q [<- Hq]].
  apply (within_round2 _ _ (Q q Hq)). lia.
Qed.

Lemma all_finite_ordinary (p : Params.t) :
  ordinary p = true -> all_finite (buildRows p) = true.
Proof.
  intros H. apply forallb_forall. intros w Hw.
  apply In_nth_error in Hw. destruct Hw as [i Hw].
  apply buildRows_nth_inv in Hw. destruct Hw as [Hi ->].
  apply row_finite; [exact H|]. pose proof (iterations_range p). lia.
Qed.

End Size.

(** * Statements about [buildRows] *)

Lemma dropWhile_all (f : ascii -> bool) (l : list ascii) :
  forallb f l = true -> Js.dropWhile f l = [].
Proof.
  induction l as [|a l IH]; simpl; [reflexivity|].
  destruct (f a); [exact IH | discriminate].
Qed.

Lemma StringToNumber_blank (s : string) :
  forallb Js.isWhiteSpace (list_ascii_of_string s) = true ->
  Js.StringToNumber s = 0.
Proof.
  intros H. unfold Js.StringToNumber, Js.trim.
  now rewrite (dropWhile_all _ _ H).
Qed.

Lemma toFinite_malformed (v : value) (fb : float) :
  malformed v = true -> toFinite v fb = 0 \/ toFinite v fb = fb.
Proof.
  destruct v as [| |b|x|s]; simpl; intros H.
  - now right.
  - now left.
  - discriminate.
  - right. unfold toFinite, Js.isFinite, is_finite. simpl. now rewrite H.
  - left. unfold toFinite. simpl. now rewrite (StringToNumber_blank s H).
Qed.

Lemma toFinite_malformed_0 (v : value) :
  malformed v = true -> toFinite v 0 = 0.
Proof. intros H. now destruct (toFinite_malformed v 0 H). Qed.

Lemma buildRows_all_malformed (p : Params.t) :
  all_malformed p = true -> buildRows p = [zero_row].
Proof.
  destruct p as [v1 v2 v3 v4 v5 v6 v7 v8]. unfold all_malformed.
  cbn [Params.startingCapital Params.incomeMonthly Params.expensesMonthly
       Params.incomeGrowthPct Params.returnPct Params.inflationPct
       Params.years Params.contributionInterestFactor].
  rewrite !andb_true_iff. intros [[[[[[[H1 H2] H3] H4] H5] H6] H7] H8].
  unfold buildRows, constants, init, toPct.
  cbn [Params.startingCapital Params.incomeMonthly Params.expensesMonthly
       Params.incomeGrowthPct Params.returnPct Params.inflationPct
       Params.years Params.contributionInterestFactor].
  rewrite (toFinite_malformed_0 v1 H1), (toFinite_malformed_0 v2 H2),
    (toFinite_malformed_0 v3 H3), (toFinite_malformed_0 v4 H4),
    (toFinite_malformed_0 v5 H5), (toFinite_malformed_0 v6 H6).
  destruct (toFinite_malformed v7 1 H7) as [E|E]; rewrite E;
    destruct (nullish_or_empty v8);
    try rewrite (toFinite_malformed_0 v8 H8);
    vm_compute; reflexivity.
Qed.

Lemma numeric_fields_row (c : consts) (y : float) (st : locals) :
  numeric_fields (row c y st) = map round2 (quantities c st).
Proof. reflexivity. Qed.

(** A fully malformed record is of ordinary size: every amount and
    percentage is coerced to 0, the factor to 1 or 0. *)
Lemma ordinary_all_malformed (p : Params.t) :
  all_malformed p = true -> ordinary p = true.
Proof.
  destruct p as [v1 v2 v3 v4 v5 v6 v7 v8]. unfold all_malformed.
  cbn [Params.startingCapital Params.incomeMonthly Params.expensesMonthly
       Params.incomeGrowthPct Params.returnPct Params.inflationPct
       Params.years Params.contributionInterestFactor].
  rewrite !andb_true_iff. intros [[[[[[[H1 H2] H3] H4] H5] H6] H7] H8].
  unfold ordinary, constants, init.
  cbn [Params.startingCapital Params.incomeMonthly Params.expensesMonthly
       Params.incomeGrowthPct Params.returnPct Params.inflationPct
       Params.years Params.contributionInterestFactor
       capitalStart incomeMonthly expensesMonthly k].
  rewrite (toFinite_malformed_0 v1 H1), (toFinite_malformed_0 v2 H2),
    (toFinite_malformed_0 v3 H3), (toFinite_malformed_0 v4 H4),
    (toFinite_malformed_0 v5 H5), (toFinite_malformed_0 v6 H6).
  destruct (nullish_or_empty v8);
    try rewrite (toFinite_malformed_0 v8 H8); reflexivity.
Qed.

Lemma map_map_ext (f g : float -> bool) (h : float -> float) (l : list float) :
  (forall x, f (h x) = g x) -> map f (map h l) = map g l.
Proof.
  intros H. rewrite map_map. apply map_ext. exact H.
Qed.

(** C1 (as the code has it): [buildRows] returns between 1 and 60 rows for
    every parameter record.  Every numeric field of every row is a finite
    number whenever the record is of ordinary size, that is, whenever after
    coercion [startingCapital], [incomeMonthly] and [expensesMonthly] are
    below 2^64 in absolute value and the three percentages and the
    contribution factor are below 1024 in absolute value.  A record whose
    eight fields are all absent, [null], [undefined], blank or NaN is of
    ordinary size, and its result is exactly one row, of year 1, whose
    numeric fields are all 0.  For any record, each numeric field of a row
    is finite exactly when the scaled value [(x + epsilon) * 100] that
    [round2] forms from its own unrounded quantity [x] is finite. *)
Theorem buildRows_total (p : Params.t) :
  (1 <= List.length (buildRows p) <= 60)%nat
  /\ (ordinary p = true -> all_finite (buildRows p) = true)
  /\ (all_malformed p = true ->
      ordinary p = true /\ buildRows p = [zero_row])
  /\ (forall (i : nat) (w : YearRow.t),
         nth_error (buildRows p) i = Some w ->
         map Js.isFinite (numeric_fields w)
         = map (fun x => Js.isFinite ((x + Js.EPSILON) * 100))
               (quantities (constants p) (running p i))).
Proof.
  split; [|split; [|split]].
  - rewrite buildRows_length. apply iterations_range.
  - apply Size.all_finite_ordinary.
  - intros H. split; [now apply ordinary_all_malformed|].
    now apply buildRows_all_malformed.
  - intros i w H. row_of H. rewrite numeric_fields_row.
    apply map_map_ext, Overflow.round2_finite.
Qed.

(** Sixty years from a capital of 10^15 at 100% a year, with 50% income
    growth and 30% inflation; and the empty record. *)
Lemma buildRows_total_witness :
  let p := params 1e15 250000 100000 50 100 30 60 (JNum 1) in
  (ordinary p = true
   /\ List.length (buildRows p) = 60%nat
   /\ all_finite (buildRows p) = true)
  /\ (ordinary Params.empty = true /\ buildRows Params.empty = [zero_row]).
Proof.
  cbn zeta.
  destruct (buildRows_total (params 1e15 250000 100000 50 100 30 60 (JNum 1)))
    as [_ [F _]].
  destruct (buildRows_total Params.empty) as [_ [_ [M _]]].
  split; [split; [reflexivity | split; [vm_compute; reflexivity|]]|].
  - exact (F eq_refl).
  - exact (M eq_refl).
Defined.

(** C1 as stated fails: a finite input can overflow.  With
    [incomeMonthly = 1e308] and nothing else, [round2] multiplies by 100
    past the largest double, and the row holds Infinity and NaN. *)
Lemma buildRows_not_always_finite :
  let p := Params.mk JUndefined (JNum 1e308) JUndefined JUndefined
                     JUndefined JUndefined JUndefined JUndefined in
  Js.isFinite 1e308 = true
  /\ all_finite (buildRows p) = false
  /\ map YearRow.incomeMonthly (buildRows p) = [infinity]
  /\ map YearRow.capitalEnd (buildRows p) = [nan].
Proof. vm_compute. repeat split; reflexivity. Qed.

(** C2: scenario A.  The one row returned has deltaMonthly 1589,
    contribution 19068, interestOnStart 0, interestOnContribution 1430.10
    and capitalEnd 20498.10. *)
Theorem scenario_A :
  buildRows (params 0 5589 4000 10 15 5 1 (JNum 0.5))
  = [ {| YearRow.year := 1;
         YearRow.incomeMonthly := 5589;
         YearRow.expensesMonthly := 4000;
         YearRow.deltaMonthly := 1589;
         YearRow.contribution := 19068;
         YearRow.capitalStart := 0;
         YearRow.interestOnStart := 0;
         YearRow.interestOnContribution := 1430.10;
         YearRow.capitalEnd := 20498.10 |} ].
Proof. vm_compute. reflexivity. Qed.

(** [buildRows] reads its record through [init] and [constants] only. *)
Lemma buildRows_ext (p q : Params.t) :
  init p = init q -> constants p = constants q -> buildRows p = buildRows q.
Proof. unfold buildRows. now intros -> ->. Qed.

(** C3: the coercion of [contributionInterestFactor].  A raw value that is
    [null], [undefined] (an absent field) or the empty string resolves to
    the factor 1: the rows are those of the same record with factor 1, and
    every row's [interestOnContribution] is [contribution * r * 1], rounded.
    A raw value that is none of these and does not convert to a finite
    number resolves to the factor 0: the rows are those of the same record
    with factor 0, and every row's [interestOnContribution] is
    [contribution * r * 0], rounded.  The records with the numbers 1 and 0
    in the field resolve to the factors 1 and 0. *)
Theorem factor_coercion (p : Params.t) :
  let v := Params.contributionInterestFactor p in
  let c := constants p in
  (v = JNull \/ v = JUndefined \/ v = JStr "" ->
   k c = 1
   /\ buildRows p = buildRows (with_factor p (JNum 1))
   /\ forall (i : nat) (w : YearRow.t),
        nth_error (buildRows p) i = Some w ->
        YearRow.interestOnContribution w
        = round2 (contribution (running p i) * r c * 1))
  /\ (v <> JNull -> v <> JUndefined -> v <> JStr "" ->
      Js.isFinite (Js.Number v) = false ->
      k c = 0
      /\ buildRows p = buildRows (with_factor p (JNum 0))
      /\ forall (i : nat) (w : YearRow.t),
           nth_error (buildRows p) i = Some w ->
           YearRow.interestOnContribution w
           = round2 (contribution (running p i) * r c * 0))
  /\ k (constants (with_factor p (JNum 1))) = 1
  /\ k (constants (with_factor p (JNum 0))) = 0.
Proof.
  cbn zeta.
  assert (R : forall x, k (constants p) = x ->
              forall (i : nat) (w : YearRow.t),
                nth_error (buildRows p) i = Some w ->
                YearRow.interestOnContribution w
                = round2 (contribution (running p i) * r (constants p) * x)).
  { intros x <- i w H. row_of H. reflexivity. }
  assert (E : forall x, k (constants p) = x -> Js.isFinite x = true ->
              buildRows p = buildRows (with_factor p (JNum x))).
  { intros x Hk Hx. apply buildRows_ext; [reflexivity|].
    destruct p as [v1 v2 v3 v4 v5 v6 v7 v]. unfold constants in *.
    cbn [with_factor Params.startingCapital Params.incomeMonthly
         Params.expensesMonthly Params.incomeGrowthPct Params.returnPct
         Params.inflationPct Params.years Params.contributionInterestFactor
         nullish_or_empty k] in *.
    f_equal. rewrite Hk. unfold toFinite. cbn [Js.Number]. now rewrite Hx. }
  split; [|split; [|split; reflexivity]].
  - intros H.
    assert (K : k (constants p) = 1).
    { unfold constants; cbn [k]. destruct H as [->|[->| ->]]; reflexivity. }
    split; [exact K|]. split; [now apply E | now apply R].
  - intros H1 H2 H3 H.
    assert (K : k (constants p) = 0).
    { unfold constants; cbn [k].
      replace (nullish_or_empty (Params.contributionInterestFactor p))
        with false.
      - unfold toFinite. now rewrite H.
      - destruct (Params.contributionInterestFactor p) as [| |b|x|s];
          try reflexivity; try congruence.
        destruct s; [congruence | reflexivity]. }
    split; [exact K|]. split; [now apply E | now apply R].
Qed.

(** 1000 a month saved at 10%: an absent or empty factor credits the full
    1200 on the contribution, a NaN or an unreadable string credits 0. *)
Lemma factor_coercion_witness :
  let p := params 0 2000 1000 0 10 0 1 in
  let interest v := map YearRow.interestOnContribution (buildRows (p v)) in
  (k (constants (p JUndefined)) = 1 /\ interest JUndefined = [1200]
   /\ buildRows (p JUndefined) = buildRows (p (JNum 1)))
  /\ (k (constants (p (JStr ""))) = 1 /\ interest (JStr "") = [1200]
      /\ buildRows (p (JStr "")) = buildRows (p (JNum 1)))
  /\ (k (constants (p (JNum nan))) = 0 /\ interest (JNum nan) = [0]
      /\ buildRows (p (JNum nan)) = buildRows (p (JNum 0)))
  /\ (k (constants (p (JStr "1,5"))) = 0 /\ interest (JStr "1,5") = [0]
      /\ buildRows (p (JStr "1,5")) = buildRows (p (JNum 0))).
Proof.
  cbn zeta.
  destruct (factor_coercion (params 0 2000 1000 0 10 0 1 JUndefined))
    as [A _].
  destruct (factor_coercion (params 0 2000 1000 0 10 0 1 (JStr "")))
    as [B _].
  destruct (factor_coercion (params 0 2000 1000 0 10 0 1 (JNum nan)))
    as [_ [C _]].
  destruct (factor_coercion (params 0 2000 1000 0 10 0 1 (JStr "1,5")))
    as [_ [D _]].
  cbn zeta in A, B, C, D.
  destruct (A (or_intror (or_introl eq_refl))) as [A1 [A2 _]].
  destruct (B (or_intror (or_intror eq_refl))) as [B1 [B2 _]].
  assert (N1 : JNum nan <> JNull) by discriminate.
  assert (N2 : JNum nan <> JUndefined) by discriminate.
  assert (N3 : JNum nan <> JStr "") by discriminate.
  assert (S1 : JStr "1,5" <> JNull) by discriminate.
  assert (S2 : JStr "1,5" <> JUndefined) by discriminate.
  assert (S3 : JStr "1,5" <> JStr "") by discriminate.
  destruct (C N1 N2 N3 eq_refl) as [C1 [C2 _]].
  destruct (D S1 S2 S3 eq_refl) as [D1 [D2 _]].
  split; [|split; [|split]];
    (split; [assumption | split; [reflexivity | assumption]]).
Defined.

(** C4: the number of rows is clamp(floor(toFinite(years, 1)), 1, 60),
    whatever [years] holds, and so lies between 1 and 60. *)
Theorem length_is_clamped_years (p : Params.t) :
  Z.of_nat (List.length (buildRows p))
  = clamp (integer_floor (toFinite (Params.years p) 1)) 1 60
  /\ (1 <= List.length (buildRows p) <= 60)%nat.
Proof.
  rewrite buildRows_length. split; [|apply iterations_range].
  unfold iterations. pose proof (horizon_range p). now rewrite Z2Nat.id by lia.
Qed.

(** Horizons that are zero, negative, fractional, too large or malformed. *)
Lemma clamped_years_examples :
  let len v := List.length (buildRows (Params.mk JUndefined JUndefined
                 JUndefined JUndefined JUndefined JUndefined v JUndefined)) in
  map len [JNum 0; JNum (-5); JNum 2.7; JNum 60.5; JNum 1000; JNum 1e300;
           JStr "abc"; JStr ""; JStr " 12 "; JNull; JNum nan; JNum infinity]
  = [1; 1; 2; 60; 60; 60; 1; 1; 12; 1; 1; 1]%nat.
Proof. vm_compute. reflexivity. Qed.



(** The running income and expenses of year [i + 1] are the coerced inputs
    multiplied [i] times by their growth factors. *)
Lemma running_compound (p : Params.t) (i : nat) :
  incomeMonthly (running p i)
  = compound (incomeMonthly (init p)) (1 + gIncome (constants p)) i
  /\ expensesMonthly (running p i)
     = compound (expensesMonthly (init p)) (1 + infl (constants p)) i.
Proof.
  induction i as [|i [IH1 IH2]]; [split; reflexivity|].
  change (running p (S i)) with (advance (constants p) (running p i)).
  cbn [advance incomeMonthly expensesMonthly compound].
  now rewrite IH1, IH2.
Qed.

(** C7: growth and inflation are applied after the row of the year is
    pushed and compound multiplicatively.  For every record the row of year
    [i + 1] holds the coerced [incomeMonthly] multiplied [i] times by
    [1 + incomeGrowthPct / 100], rounded, and the coerced [expensesMonthly]
    multiplied [i] times by [1 + inflationPct / 100], rounded: the row of
    year 1 holds the inputs themselves.  Scenario C: with incomeMonthly
    5589, expensesMonthly 4000, growth 10%, inflation 5%, return 0% and 2
    years, the row of year 1 holds 5589 and 4000 and the row of year 2 holds
    6147.9 and 4200, whatever the starting capital and the factor. *)
Theorem growth_from_year_2 :
  (forall (p : Params.t) (i : nat) (w : YearRow.t),
      nth_error (buildRows p) i = Some w ->
      YearRow.incomeMonthly w
      = round2 (compound (toFinite (Params.incomeMonthly p) 0)
                         (1 + toFinite (Params.incomeGrowthPct p) 0 / 100) i)
      /\ YearRow.expensesMonthly w
         = round2 (compound (toFinite (Params.expensesMonthly p) 0)
                            (1 + toFinite (Params.inflationPct p) 0 / 100) i))
  /\ (forall (p : Params.t) (w : YearRow.t),
        nth_error (buildRows p) 0 = Some w ->
        YearRow.incomeMonthly w = round2 (toFinite (Params.incomeMonthly p) 0)
        /\ YearRow.expensesMonthly w
           = round2 (toFinite (Params.expensesMonthly p) 0))
  /\ (forall sc kf : value,
        let p := Params.mk sc (JNum 5589) (JNum 4000) (JNum 10) (JNum 0)
                           (JNum 5) (JNum 2) kf in
        map YearRow.year (buildRows p) = [1; 2]
        /\ map YearRow.incomeMonthly (buildRows p) = [5589; 6147.9]
        /\ map YearRow.expensesMonthly (buildRows p) = [4000; 4200]
        /\ incomeMonthly (running p 1) = 5589 * (1 + 10 / 100)
        /\ expensesMonthly (running p 1) = 4000 * (1 + 5 / 100)).
Proof.
  split; [|split].
  - intros p i w H. row_of H. cbn [YearRow.incomeMonthly YearRow.expensesMonthly row].
    destruct (running_compound p i) as [-> ->]. split; reflexivity.
  - intros p w H. row_of H. split; reflexivity.
  - intros sc kf. cbn zeta. rewrite buildRows_emitted.
    repeat split; vm_compute; reflexivity.
Qed.

(** Three years of scenario C: the third year compounds, 5589 * 1.1 * 1.1 =
    6762.69 and 4000 * 1.05 * 1.05 = 4410, where growth on the first year's
    amounts alone would give 6706.8 and 4400. *)
Lemma growth_from_year_2_witness :
  let p := params 0 5589 4000 10 0 5 3 (JNum 0) in
  map YearRow.incomeMonthly (buildRows p) = [5589; 6147.9; 6762.69]
  /\ map YearRow.expensesMonthly (buildRows p) = [4000; 4200; 4410]
  /\ 6762.69 = round2 (5589 * (1 + 10 / 100) * (1 + 10 / 100))
  /\ 4410 = round2 (4000 * (1 + 5 / 100) * (1 + 5 / 100)).
Proof.
  cbn zeta. split; [reflexivity|]. split; [reflexivity|].
  exact (proj1 growth_from_year_2 (params 0 5589 4000 10 0 5 3 (JNum 0))
           2%nat _ eq_refl).
Defined.

(** The floor [if (x < 0) x = 0] is [Math.max(0, x)], except that it
    leaves -0 where [Math.max] returns +0. *)
Lemma floor_is_max (x : float) :
  (if x <? 0 then 0 else x) = Js.max 0 x \/ x = neg_zero.
Proof.
  destruct (Prim2SF x) as [s|s| |s m e] eqn:E.
  - rewrite (Dbl.of_spec x _ E).
    destruct s; [right; reflexivity | left; reflexivity].
  - rewrite (Dbl.of_spec x _ E). left. now destruct s.
  - rewrite (Dbl.of_spec x _ E). now left.
  - left. unfold Js.max. rewrite (Dbl.is_nan_finite x s m e E).
    change (is_nan 0) with false. change (Leibniz.eqb 0 neg_zero) with false.
    cbn [orb andb]. rewrite !FloatAxioms.ltb_spec, E.
    change (Prim2SF 0) with (S754_zero false). now destruct s.
Qed.

Lemma round2_floor_is_max (x : float) :
  round2 (if x <? 0 then 0 else x) = round2 (Js.max 0 x).
Proof.
  destruct (floor_is_max x) as [->| ->]; reflexivity.
Qed.

Lemma running_succ (p : Params.t) (i : nat) :
  running p (S i) = advance (constants p) (running p i).
Proof. reflexivity. Qed.

(** C5: the [capitalEnd] of every row is [Math.max(0, capitalStart +
    contribution + interestOnStart + interestOnContribution)] of that
    year's running values, rounded; the floored value, not yet rounded, is
    what the next year starts from; and no row's [capitalEnd] is negative. *)
Theorem capitalEnd_floored (p : Params.t) (i : nat) (w : YearRow.t) :
  nth_error (buildRows p) i = Some w ->
  let c := constants p in
  let st := running p i in
  let raw := capitalStart st + contribution st + interestOnStart c st
             + interestOnContribution c st in
  YearRow.capitalEnd w = round2 (Js.max 0 raw)
  /\ capitalStart (running p (S i)) = (if raw <? 0 then 0 else raw)
  /\ (YearRow.capitalEnd w <? 0) = false.
Proof.
  intros H. row_of H. cbn zeta.
  split; [|split].
  - cbn [YearRow.capitalEnd row]. unfold capitalEnd, capitalEndRaw.
    apply round2_floor_is_max.
  - reflexivity.
  - cbn [YearRow.capitalEnd row].
    apply Sign.round2_not_negative, Sign.capitalEnd_not_negative.
Qed.

(** Scenario B: the withdrawal that would leave -7100 leaves 0. *)
Lemma capitalEnd_floored_witness :
  let w := {| YearRow.year := 1;
              YearRow.incomeMonthly := 1000;
              YearRow.expensesMonthly := 2000;
              YearRow.deltaMonthly := -1000;
              YearRow.contribution := -12000;
              YearRow.capitalStart := 5000;
              YearRow.interestOnStart := 500;
              YearRow.interestOnContribution := -600;
              YearRow.capitalEnd := 0 |} in
  YearRow.capitalEnd w = round2 (Js.max 0 (5000 + -12000 + 500 + -600))
  /\ capitalStart (running (params 5000 1000 2000 0 10 0 1 (JNum 0.5)) 1) = 0
  /\ (YearRow.capitalEnd w <? 0) = false.
Proof.
  exact (capitalEnd_floored (params 5000 1000 2000 0 10 0 1 (JNum 0.5)) 0 _
           eq_refl).
Defined.

(** ** Chaining *)

Lemma emitted_years (c : consts) (n : nat) :
  forall (j : nat) (st : locals),
    map YearRow.year (emitted c j st n)
    = map (fun y => Js.of_int (Z.of_nat y)) (seq j n).
Proof.
  induction n as [|n IH]; intros j st; simpl; [reflexivity|].
  now rewrite IH.
Qed.

(** C6 (as the code has it): the [year] fields are 1..N in order; the
    [capitalStart] field of a row equals the [capitalEnd] field of the row
    before it; and the value carried into the next iteration is the floored
    [capitalEnd] before rounding, both fields being its [round2]. *)
Theorem rows_are_chained (p : Params.t) :
  map YearRow.year (buildRows p)
  = map (fun y => Js.of_int (Z.of_nat y)) (seq 1 (List.length (buildRows p)))
  /\ forall (i : nat) (w w' : YearRow.t),
       nth_error (buildRows p) i = Some w ->
       nth_error (buildRows p) (S i) = Some w' ->
       YearRow.capitalStart w' = YearRow.capitalEnd w
       /\ capitalStart (running p (S i)) = capitalEnd (constants p) (running p i)
       /\ YearRow.capitalEnd w = round2 (capitalEnd (constants p) (running p i))
       /\ YearRow.capitalStart w' = round2 (capitalStart (running p (S i))).
Proof.
  split.
  - rewrite buildRows_length, buildRows_emitted. apply emitted_years.
  - intros i w w' H H'.
    row_of H. row_of H'. repeat split.
Qed.

Lemma rows_are_chained_witness :
  let p := params 0 1000.003 0 0 0 0 2 (JNum 0) in
  map YearRow.year (buildRows p) = [1; 2]
  /\ map YearRow.capitalEnd (buildRows p) = [12000.04; 24000.07]
  /\ map YearRow.capitalStart (buildRows p) = [0; 12000.04]
  /\ capitalStart (running p 1) = 12000.036.
Proof.
  cbn zeta.
  destruct (rows_are_chained (params 0 1000.003 0 0 0 0 2 (JNum 0)))
    as [Y C].
  split; [exact Y|].
  destruct (C 0%nat _ _ eq_refl eq_refl) as [_ [S1 _]].
  split; [reflexivity|]. split; [reflexivity|]. exact S1.
Defined.

(** C6 as stated fails on "the value carried is the rounded capitalEnd":
    with 1000.003 a month the first year ends at 12000.036, pushed as
    12000.04; the second year starts from 12000.036 and ends at 24000.07,
    where a rounded carry would give 24000.08. *)
Lemma carry_is_not_rounded :
  let p := params 0 1000.003 0 0 0 0 2 (JNum 0) in
  map YearRow.capitalEnd (buildRows p) = [12000.04; 24000.07]
  /\ capitalStart (running p 1) = 12000.036
  /\ map YearRow.capitalEnd (buildRows_rounded_carry p) = [12000.04; 24000.08]
  /\ buildRows p <> buildRows_rounded_carry p.
Proof.
  cbn zeta. split; [|split; [|split]]; try (vm_compute; reflexivity).
  intros E. apply (f_equal (map (fun w => Prim2SF (YearRow.capitalEnd w)))) in E.
  vm_compute in E. discriminate E.
Qed.

(** ** The monthly delta *)

(** C8 (as the code has it): the [deltaMonthly] field is the difference of
    the running [incomeMonthly] and [expensesMonthly] of that year, rounded;
    the [incomeMonthly] and [expensesMonthly] fields are those two values,
    each rounded on its own. *)
Theorem deltaMonthly_field (p : Params.t) (i : nat) (w : YearRow.t) :
  nth_error (buildRows p) i = Some w ->
  let st := running p i in
  YearRow.deltaMonthly w = round2 (incomeMonthly st - expensesMonthly st)
  /\ YearRow.incomeMonthly w = round2 (incomeMonthly st)
  /\ YearRow.expensesMonthly w = round2 (expensesMonthly st).
Proof.
  intros H. row_of H. repeat split.
Qed.

Lemma deltaMonthly_field_witness :
  let w := {| YearRow.year := 1;
              YearRow.incomeMonthly := 100.01;
              YearRow.expensesMonthly := 50;
              YearRow.deltaMonthly := 50;
              YearRow.contribution := 600.05;
              YearRow.capitalStart := 0;
              YearRow.interestOnStart := 0;
              YearRow.interestOnContribution := 0;
              YearRow.capitalEnd := 600.05 |} in
  YearRow.deltaMonthly w = round2 (100.006 - 50.002)
  /\ YearRow.incomeMonthly w = round2 100.006
  /\ YearRow.expensesMonthly w = round2 50.002.
Proof.
  exact (deltaMonthly_field (params 0 100.006 50.002 0 0 0 1 (JNum 0)) 0 _
           eq_refl).
Defined.

(** C8 as stated fails: with 100.006 and 50.002 a month the row holds
    incomeMonthly 100.01, expensesMonthly 50 and deltaMonthly 50, and
    100.01 - 50 is not 50. *)
Lemma deltaMonthly_not_difference_of_fields :
  let p := params 0 100.006 50.002 0 0 0 1 (JNum 0) in
  exists w,
    buildRows p = [w]
    /\ YearRow.incomeMonthly w = 100.01
    /\ YearRow.expensesMonthly w = 50
    /\ YearRow.deltaMonthly w = 50
    /\ (YearRow.deltaMonthly w
        =? YearRow.incomeMonthly w - YearRow.expensesMonthly w) = false
    /\ YearRow.deltaMonthly w
       <> YearRow.incomeMonthly w - YearRow.expensesMonthly w.
Proof.
  cbn zeta. eexists. split; [vm_compute; reflexivity|].
  cbn [YearRow.incomeMonthly YearRow.expensesMonthly YearRow.deltaMonthly].
  repeat split; try reflexivity.
  intros E. apply (f_equal Prim2SF) in E. vm_compute in E. discriminate E.
Qed.

(** ** The starting capital of later rows *)

Lemma isFinite_not_nan (x : float) :
  Js.isFinite x = true -> is_nan x = false.
Proof.
  unfold Js.isFinite, is_finite. destruct (is_nan x); [discriminate|reflexivity].
Qed.

(** C10 (as the code has it): in every row after the first the
    [capitalStart] field is not negative ([capitalStart < 0] is false),
    being the rounded [capitalEnd] of the year before: it is at least 0, or
    NaN once the arithmetic has overflowed, and it is at least 0 for every
    record of ordinary size; the first row's is negative only if the
    coerced [startingCapital] is, and that does happen. *)
Theorem later_capitalStart_not_negative :
  (forall (p : Params.t) (i : nat) (w : YearRow.t),
      nth_error (buildRows p) (S i) = Some w ->
      (YearRow.capitalStart w <? 0) = false
      /\ (is_nan (YearRow.capitalStart w) = true
          \/ (0 <=? YearRow.capitalStart w) = true)
      /\ (ordinary p = true -> (0 <=? YearRow.capitalStart w) = true))
  /\ (forall (p : Params.t) (w : YearRow.t),
         nth_error (buildRows p) 0 = Some w ->
         (YearRow.capitalStart w <? 0) = true ->
         (toFinite (Params.startingCapital p) 0 <? 0) = true)
  /\ (exists (p : Params.t) (w : YearRow.t),
         nth_error (buildRows p) 0 = Some w
         /\ (YearRow.capitalStart w <? 0) = true).
Proof.
  split; [|split].
  - intros p i w H.
    assert (D : (YearRow.capitalStart w <? 0) = false
                /\ (is_nan (YearRow.capitalStart w) = true
                    \/ (0 <=? YearRow.capitalStart w) = true)).
    { row_of H.
      cbn [YearRow.capitalStart row]. rewrite running_succ.
      cbn [capitalStart advance].
      assert (N : negative (round2 (capitalEnd (constants p) (running p i)))
                  = false)
        by apply Sign.round2_not_negative, Sign.capitalEnd_not_negative.
      split; [exact N|]. revert N.
      generalize (round2 (capitalEnd (constants p) (running p i))) as x.
      intros x. unfold negative, is_nan.
      rewrite FloatAxioms.ltb_spec, FloatAxioms.leb_spec, FloatAxioms.eqb_spec.
      change (Prim2SF 0) with (S754_zero false).
      destruct (Prim2SF x) as [s|s| |s m e]; try destruct s;
        try discriminate; intros _; (now left) || (now right). }
    destruct D as [D1 D2]. split; [exact D1|]. split; [exact D2|].
    intros O. pose proof (Size.all_finite_ordinary p O) as F.
    unfold all_finite in F. rewrite forallb_forall in F.
    specialize (F w (nth_error_In _ _ H)).
    unfold numeric_fields in F. cbn [forallb] in F.
    rewrite !andb_true_iff in F.
    destruct F as [_ [_ [_ [_ [F _]]]]].
    apply isFinite_not_nan in F.
    destruct D2 as [D2|D2]; [congruence | exact D2].
  - intros p w H. row_of H.
    cbn [YearRow.capitalStart row]. unfold running; cbn [state_at init capitalStart].
    intros Hn.
    destruct (toFinite (Params.startingCapital p) 0 <? 0) eqn:E; [reflexivity|].
    apply Sign.round2_not_negative in E. unfold negative in E. congruence.
  - exists (params (-100) 0 0 0 0 0 1 (JNum 0)). eexists.
    split; vm_compute; reflexivity.
Qed.

Lemma later_capitalStart_not_negative_witness :
  let p := params (-100) 0 1000 0 0 0 2 (JNum 0) in
  map YearRow.capitalStart (buildRows p) = [-100; 0]
  /\ (nth 1 (map YearRow.capitalStart (buildRows p)) nan <? 0) = false
  /\ (0 <=? nth 1 (map YearRow.capitalStart (buildRows p)) nan) = true
  /\ (toFinite (Params.startingCapital p) 0 <? 0) = true.
Proof.
  cbn zeta. destruct later_capitalStart_not_negative as [L [F _]].
  destruct (L (params (-100) 0 1000 0 0 0 2 (JNum 0)) 0%nat _ eq_refl)
    as [L1 [_ L3]].
  split; [reflexivity|]. split; [exact L1|]. split; [exact (L3 eq_refl)|].
  exact (F (params (-100) 0 1000 0 0 0 2 (JNum 0)) _ eq_refl eq_refl).
Defined.

(** C10 as stated fails on "non-negative": with [incomeMonthly = 1e308] and
    two years the first year's contribution overflows, its [capitalEnd] is
    NaN, and the second row starts from NaN, which is neither negative nor
    at least 0. *)
Lemma later_capitalStart_can_be_NaN :
  let p := Params.mk JUndefined (JNum 1e308) JUndefined JUndefined
                     JUndefined JUndefined (JNum 2) JUndefined in
  Js.isFinite 1e308 = true
  /\ map YearRow.capitalStart (buildRows p) = [0; nan]
  /\ map (fun w => 0 <=? YearRow.capitalStart w) (buildRows p) = [true; false]
  /\ map (fun w => YearRow.capitalStart w <? 0) (buildRows p) = [false; false].
Proof. vm_compute. repeat split; reflexivity. Qed.

(** * The rest of the script *)

Lemma forEach_push_map {A B : Type} (f : A -> B) (l : list A) (data : list B) :
  forEach_push f l data = data ++ map f l.
Proof.
  unfold forEach_push. revert data.
  induction l as [|a l IH]; intros data; simpl.
  - now rewrite app_nil_r.
  - rewrite IH, <- app_assoc. reflexivity.
Qed.

Lemma rectangular_cons (w : nat) (h : list value) (t : table) :
  List.length h = w -> (forall line, In line t -> List.length line = w) ->
  rectangular w (h :: t).
Proof.
  intros Hh Ht. constructor; [exact Hh|]. now apply Forall_forall.
Qed.

Lemma map_snd_indexed {A : Type} (l : list A) : map snd (indexed l) = l.
Proof.
  unfold indexed. generalize 0%nat as k.
  induction l as [|a l IH]; intros k; simpl; [reflexivity|].
  now rewrite IH.
Qed.

Lemma hd_growthLine (rows : list YearRow.t) (i : nat) (w : YearRow.t) :
  hd JUndefined (growthLine rows i w) = JNum (YearRow.year w)
  /\ List.length (growthLine rows i w) = 4%nat.
Proof. destruct i; split; reflexivity. Qed.

(** ** Shapes of the tables *)

(** X4: the table of the main chart has one line per row under its header,
    every line as wide as the header (two cells, or one more than the active
    metrics in multi-metric mode), and its first column holds the years of
    the rows in order. *)
Theorem main_table_shape (s : refs) (rows : list YearRow.t) :
  let t := prepareMainChartData s rows in
  let w := if showMultipleMetrics s then S (List.length (activeMetrics s))
           else 2%nat in
  List.length t = S (List.length rows)
  /\ rectangular w t
  /\ firstColumn t = years_of rows.
Proof.
  cbn zeta. unfold prepareMainChartData, firstColumn, years_of.
  destruct (showMultipleMetrics s).
  - rewrite forEach_push_map. cbn [app tl List.length].
    rewrite !length_map. split; [reflexivity|]. split.
    + apply rectangular_cons; [cbn [List.length]; now rewrite length_map|].
      intros line [r [<- _]]%in_map_iff.
      rewrite forEach_push_map, length_app, length_map. reflexivity.
    + rewrite map_map. apply map_ext. intros r.
      now rewrite forEach_push_map.
  - cbn [tl List.length]. rewrite length_map. split; [reflexivity|]. split.
    + apply rectangular_cons; [reflexivity|].
      now intros line [r [<- _]]%in_map_iff.
    + now rewrite map_map.
Qed.

Lemma pushed_shape (w : nat) (h : list value) (f : YearRow.t -> list value)
    (rows : list YearRow.t) :
  List.length h = w ->
  (forall r, List.length (f r) = w /\ hd JUndefined (f r) = JNum (YearRow.year r)) ->
  let t := forEach_push f rows [h] in
  List.length t = S (List.length rows)
  /\ rectangular w t
  /\ firstColumn t = years_of rows.
Proof.
  intros Hh Hf. cbn zeta. rewrite forEach_push_map. cbn [app].
  unfold firstColumn, years_of. cbn [tl List.length]. rewrite length_map.
  split; [reflexivity|]. split.
  - apply rectangular_cons; [exact Hh|].
    intros line [r [<- _]]%in_map_iff. apply Hf.
  - rewrite map_map. apply map_ext. intros r. apply Hf.
Qed.

(** X5: the breakdown, cash-flow and ratio tables, and the performance
    table in its three views, have one line per row under the header, four
    cells a line (five in the breakdown), and the years of the rows as first
    column; any other performance metric gives the table of the main chart. *)
Theorem side_tables_shape (s : refs) (rows : list YearRow.t) :
  let shaped w t :=
    List.length t = S (List.length rows)
    /\ rectangular w t /\ firstColumn t = years_of rows in
  shaped 5%nat (prepareBreakdownData rows)
  /\ shaped 4%nat (prepareCashflowData rows)
  /\ shaped 4%nat (prepareRatiosData rows)
  /\ (In (performanceMetric s) ["returns"; "growth"; "efficiency"]%string ->
      shaped 4%nat (preparePerformanceData s rows))
  /\ (~ In (performanceMetric s) ["returns"; "growth"; "efficiency"]%string ->
      preparePerformanceData s rows = prepareMainChartData s rows).
Proof.
  cbv beta zeta. split; [|split; [|split; [|split]]];
    try (apply pushed_shape; [reflexivity | intros r; split; reflexivity]).
  - intros H. unfold preparePerformanceData.
    destruct H as [<-|[<-|[<-|[]]]]; cbn [String.eqb Ascii.eqb Bool.eqb].
    + apply pushed_shape; [reflexivity | intros r; split; reflexivity].
    + rewrite forEach_push_map. cbn [app]. unfold firstColumn, years_of.
      cbn [tl List.length]. rewrite length_map.
      replace (List.length (indexed rows)) with (List.length rows)
        by (rewrite <- (map_snd_indexed rows) at 1; now rewrite length_map).
      split; [reflexivity|]. split.
      * apply rectangular_cons; [reflexivity|].
        intros line [ir [<- _]]%in_map_iff. apply hd_growthLine.
      * rewrite map_map.
        rewrite <- (map_snd_indexed rows) at 2. rewrite map_map.
        apply map_ext. intros ir. apply hd_growthLine.
    + apply pushed_shape; [reflexivity | intros r; split; reflexivity].
  - intros H. unfold preparePerformanceData.
    destruct (String.eqb_spec (performanceMetric s) "returns") as [E|_];
      [exfalso; apply H; rewrite E; now left|].
    destruct (String.eqb_spec (performanceMetric s) "growth") as [E|_];
      [exfalso; apply H; rewrite E; right; now left|].
    destruct (String.eqb_spec (performanceMetric s) "efficiency") as [E|_];
      [exfalso; apply H; rewrite E; right; right; now left|].
    reflexivity.
Qed.

Lemma side_tables_shape_witness :
  let s := mkRefs "capitalEnd" false ["capitalEnd"%string] "growth" (JNum 1) in
  let rows := buildRows (params 0 5589 4000 10 15 5 3 (JNum 1)) in
  (List.length (preparePerformanceData s rows) = 4%nat
   /\ rectangular 4 (preparePerformanceData s rows)
   /\ firstColumn (preparePerformanceData s rows) = [JNum 1; JNum 2; JNum 3])
  /\ preparePerformanceData (mkRefs "capitalEnd" false [] "" (JNum 1)) rows
     = prepareMainChartData (mkRefs "capitalEnd" false [] "" (JNum 1)) rows.
Proof.
  cbv beta zeta. split.
  - apply (side_tables_shape
             (mkRefs "capitalEnd" false ["capitalEnd"%string] "growth" (JNum 1))
             (buildRows (params 0 5589 4000 10 15 5 3 (JNum 1)))).
    right; left; reflexivity.
  - apply (side_tables_shape (mkRefs "capitalEnd" false [] "" (JNum 1))
             (buildRows (params 0 5589 4000 10 15 5 3 (JNum 1)))).
    intros [H|[H|[H|[]]]]; discriminate H.
Defined.

(** ** An unknown metric *)

(** X6: a metric that is none of the eight options is drawn as the final
    capital: in single-metric mode under the label "Value"; in multi-metric
    mode, wherever it stands in the list of active metrics and whatever the
    other active metrics are, its column is headed by its own name and
    holds the [capitalEnd] of every row.  Each option is drawn under its
    own label, none of which is "Value". *)
Theorem unknown_metric_falls_back (s : refs) (rows : list YearRow.t) :
  (findOption (metric s) = None -> showMultipleMetrics s = false ->
   prepareMainChartData s rows
   = [JStr "Year"; JStr "Value"]
     :: map (fun r => [JNum (YearRow.year r); JNum (YearRow.capitalEnd r)]) rows)
  /\ (showMultipleMetrics s = true ->
      forall (j : nat) (m : string),
        nth_error (activeMetrics s) j = Some m -> findOption m = None ->
        exists header,
          nth_error (prepareMainChartData s rows) 0 = Some header
          /\ nth_error header (S j) = Some (JStr m)
          /\ forall (i : nat) (r : YearRow.t),
               nth_error rows i = Some r ->
               exists line,
                 nth_error (prepareMainChartData s rows) (S i) = Some line
                 /\ nth_error line 0 = Some (JNum (YearRow.year r))
                 /\ nth_error line (S j) = Some (JNum (YearRow.capitalEnd r)))
  /\ (forall o, In o metricOptions ->
        metricLabel (MetricOption.value o) = MetricOption.label o
        /\ MetricOption.label o <> "Value"%string).
Proof.
  assert (G : forall m r, findOption m = None ->
                          getMetricValue r m = YearRow.capitalEnd r).
  { intros m r H. unfold getMetricValue.
    repeat match goal with
           | |- context [String.eqb m ?lit] =>
               destruct (String.eqb_spec m lit) as [E|_];
               [rewrite E in H; vm_compute in H; discriminate H|]
           end.
    reflexivity. }
  split; [|split].
  - intros H M. unfold prepareMainChartData, metricLabel. rewrite M, H.
    f_equal. apply map_ext. intros r. now rewrite G.
  - intros M j m A H. unfold prepareMainChartData. rewrite M. cbv zeta.
    rewrite forEach_push_map. cbn [app nth_error].
    eexists. split; [reflexivity|]. split.
    + cbn [nth_error]. rewrite (map_nth_error _ _ _ A). now rewrite H.
    + intros i r R. eexists. split; [apply (map_nth_error _ _ _ R)|].
      rewrite forEach_push_map. cbn [app nth_error].
      split; [reflexivity|].
      rewrite (map_nth_error _ _ _ A). now rewrite G.
  - intros o Ho. simpl in Ho.
    repeat (destruct Ho as [<-|Ho]; [split; [reflexivity | discriminate]|]).
    destruct Ho.
Qed.

(** Scenario A drawn with three active metrics, the second of them
    unknown; and drawn alone under an unknown metric. *)
Lemma unknown_metric_falls_back_witness :
  let rows := buildRows (params 0 5589 4000 10 15 5 1 (JNum 0.5)) in
  let s := mkRefs "capitalEnd" true ["contribution"; "bar"; "deltaMonthly"]%string
                  "returns" (JNum 1) in
  prepareMainChartData s rows
  = [ [JStr "Year"; JStr "Annual Contributions"; JStr "bar";
       JStr "Monthly Delta"];
      [JNum 1; JNum 19068; JNum 20498.1; JNum 1589] ]
  /\ (exists header line,
        nth_error (prepareMainChartData s rows) 0 = Some header
        /\ nth_error header 2 = Some (JStr "bar")
        /\ nth_error (prepareMainChartData s rows) 1 = Some line
        /\ nth_error line 2 = Some (JNum 20498.1))
  /\ prepareMainChartData (mkRefs "capitalStart" false [] "returns" (JNum 1))
       rows
     = [[JStr "Year"; JStr "Value"]; [JNum 1; JNum 20498.1]].
Proof.
  cbn zeta. split; [vm_compute; reflexivity|]. split.
  - destruct (proj1 (proj2 (unknown_metric_falls_back
        (mkRefs "capitalEnd" true ["contribution"; "bar"; "deltaMonthly"]%string
                "returns" (JNum 1))
        (buildRows (params 0 5589 4000 10 15 5 1 (JNum 0.5)))))
        eq_refl 1%nat "bar"%string eq_refl eq_refl) as [header [H0 [H1 H2]]].
    destruct (H2 0%nat _ eq_refl) as [line [L0 [_ L1]]].
    exists header, line. repeat split; assumption.
  - exact (proj1 (unknown_metric_falls_back
                  (mkRefs "capitalStart" false [] "returns" (JNum 1))
                  (buildRows (params 0 5589 4000 10 15 5 1 (JNum 0.5))))
               eq_refl eq_refl).
Defined.

(** ** The focus year *)

Lemma buildRows_first (p : Params.t) :
  exists rest,
    buildRows p = row (constants p) 1 (init p) :: rest.
Proof.
  pose proof (buildRows_nth p 0) as H. pose proof (iterations_range p) as R.
  destruct (buildRows p) as [|w rest]; simpl in H.
  - discriminate H. lia.
  - exists rest. f_equal. injection (H ltac:(lia)) as ->. reflexivity.
Qed.

(** X7: after the watcher on [rows] has run, the focus year is the year
    of one of the rows: the pie chart's lookup finds its row without the
    [|| rows[0]] fallback, and running the watcher again changes nothing. *)
Theorem focus_year_is_a_row (p : Params.t) (focusYear : value) :
  let rows := buildRows p in
  let focusYear' := watchRows rows focusYear in
  (exists r,
      find (fun r => Js2.strictEqualsNumber (YearRow.year r) focusYear') rows
      = Some r
      /\ focusRow rows focusYear' = Some r
      /\ In r rows)
  /\ watchRows rows focusYear' = focusYear'.
Proof.
  cbn zeta. destruct (buildRows_first p) as [rest ->].
  set (w0 := row (constants p) 1 (init p)).
  assert (Y : Js2.strictEqualsNumber (YearRow.year w0) (JNum (YearRow.year w0)) = true)
    by reflexivity.
  unfold watchRows, focusRow.
  destruct (find (fun r => Js2.strictEqualsNumber (YearRow.year r) focusYear)
                 (w0 :: rest)) as [r|] eqn:F.
  - rewrite F. split; [|reflexivity].
    exists r. repeat split. exact (proj1 (find_some _ _ F)).
  - assert (F' : find (fun r => Js2.strictEqualsNumber (YearRow.year r)
                                  (JNum (YearRow.year w0))) (w0 :: rest) = Some w0)
      by (cbn [find]; now rewrite Y).
    rewrite F'. split; [|reflexivity].
    exists w0. repeat split. now left.
Qed.

(** ** The pie chart *)

(** X8: the pie table keeps its header and only slices whose amount is
    greater than 0: no zero, negative or NaN amount reaches the chart, and
    at most four slices do. *)
Theorem pie_slices_are_positive (w : YearRow.t) :
  exists slices,
    pieData w = [JStr "Source"; JStr "Amount"] :: slices
    /\ Forall (fun line => exists name x,
                   line = [JStr name; JNum x] /\ (0 <? x) = true) slices
    /\ (List.length slices <= 4)%nat.
Proof.
  unfold pieData. cbn [filter pieKeeps String.eqb Ascii.eqb Bool.eqb orb Js.Number].
  destruct (0 <? YearRow.capitalStart w) eqn:E1;
    destruct (0 <? Js.max 0 (YearRow.contribution w)) eqn:E2;
    destruct (0 <? YearRow.interestOnStart w) eqn:E3;
    destruct (0 <? YearRow.interestOnContribution w) eqn:E4;
    eexists; (split; [reflexivity|]); (split; [|simpl; lia]);
    repeat (constructor; [eexists; eexists; split; [reflexivity|assumption]|]);
    constructor.
Qed.

(** ** The first version of the script *)

Lemma map_pair_combine {A : Type} (f g : A -> float) (l : list A) :
  map (fun r => [JNum (f r); JNum (g r)]) l
  = map (fun yv => [JNum (fst yv); JNum (snd yv)]) (combine (map f l) (map g l)).
Proof.
  induction l as [|a l IH]; simpl; [reflexivity|]. now rewrite IH.
Qed.

(** X9: in the first version, the array [drawChart] builds and the
    [values] computed agree for every metric: under the header, the lines of
    the array are the years of the rows paired with [values], one line per
    row. *)
Theorem chart_array_matches_values (metric : string) (rows : list YearRow.t) :
  V1.chartArray metric rows
  = [JStr "Year"; JStr (V1.metricLabel metric)]
    :: map (fun yv => [JNum (fst yv); JNum (snd yv)])
           (combine (map YearRow.year rows) (V1.values metric rows))
  /\ List.length (V1.values metric rows) = List.length rows.
Proof.
  unfold V1.chartArray, V1.values. rewrite forEach_push_map. cbn [app].
  destruct (String.eqb metric "contribution");
    [|destruct (String.eqb metric "interestTotal");
      [|destruct (String.eqb metric "interestOnStart");
        [|destruct (String.eqb metric "interestOnContribution")]]];
    (split; [f_equal; apply map_pair_combine | apply length_map]).
Qed.

(** ** The test helpers *)

(** X2: [near] does not see NaN: when the actual or the expected value is
    NaN it returns normally whatever the tolerance, so a check of a NaN
    result passes. *)
Theorem near_passes_on_NaN (x eps : float) :
  near nan x eps = Normal tt /\ near x nan eps = Normal tt.
Proof.
  unfold near.
  rewrite !FloatAxioms.ltb_spec, !FloatAxioms.abs_spec, !FloatAxioms.sub_spec.
  change (Prim2SF nan) with S754_nan.
  assert (L : forall f, SFltb f S754_nan = false)
    by (intros f; unfold SFltb; now destruct f).
  split.
  - cbn [SF64sub SFsub SFabs]. now rewrite L.
  - replace (SF64sub (Prim2SF x) S754_nan) with S754_nan
      by (unfold SF64sub, SFsub; now destruct (Prim2SF x)).
    cbn [SFabs]. now rewrite L.
Qed.

Lemma sub_self (x : float) :
  Prim2SF (x - x) = S754_zero false \/ Prim2SF (x - x) = S754_nan.
Proof.
  rewrite FloatAxioms.sub_spec. unfold SF64sub, SFsub.
  destruct (Prim2SF x) as [s|s| |s m e].
  - left. now destruct s.
  - right. now destruct s.
  - now right.
  - left. rewrite Z.sub_diag. reflexivity.
Qed.

(** X3: [near(x, x, eps)] returns normally for every [x], the infinities
    included, unless [eps] is negative. *)
Theorem near_same_value (x eps : float) :
  (eps <? 0) = false -> near x x eps = Normal tt.
Proof.
  intros He. unfold near.
  rewrite FloatAxioms.ltb_spec, FloatAxioms.abs_spec.
  rewrite FloatAxioms.ltb_spec in He.
  change (Prim2SF 0) with (S754_zero false) in He.
  destruct (sub_self x) as [-> | ->]; cbn [SFabs].
  - now rewrite He.
  - unfold SFltb. now destruct (Prim2SF eps).
Qed.

Lemma near_same_value_witness :
  near infinity infinity eps_default = Normal tt
  /\ near 1430.1 1430.1 0 = Normal tt.
Proof.
  split; [exact (near_same_value infinity eps_default eq_refl)
         | exact (near_same_value 1430.1 0 eq_refl)].
Defined.

(** X1: the nine tests of [runTests] that exercise the engine and the CSV
    separator all pass: [assert] records [pass: true] and an empty message
    for each. *)
Theorem engine_tests_pass :
  List.length engineTests = 9%nat
  /\ Forall (fun t => TestResult.pass t = true /\ TestResult.message t = [])
            engineTests.
Proof.
  split; [reflexivity|].
  vm_compute. repeat (constructor; [split; reflexivity|]). constructor.
Qed.

(** ** More on [buildRows] *)

Lemma emitted_cashColumns (n : nat) :
  forall (c c' : consts) (j : nat) (st st' : locals),
    gIncome c = gIncome c' -> infl c = infl c' ->
    incomeMonthly st = incomeMonthly st' ->
    expensesMonthly st = expensesMonthly st' ->
    map cashColumns (emitted c j st n) = map cashColumns (emitted c' j st' n).
Proof.
  induction n as [|n IH]; intros c c' j st st' Hg Hi Hin Hex; simpl;
    [reflexivity|].
  f_equal.
  - unfold cashColumns, row, contribution, deltaMonthly; cbn.
    now rewrite Hin, Hex.
  - apply IH; try assumption; unfold advance; cbn; congruence.
Qed.

(** X11: the year, income, expenses, delta and contribution columns depend
    only on [incomeMonthly], [expensesMonthly], [incomeGrowthPct],
    [inflationPct] and [years]: changing the starting capital, the return
    or the contribution factor leaves them as they are. *)
Theorem cash_columns_ignore_capital (p q : Params.t) :
  Params.incomeMonthly p = Params.incomeMonthly q ->
  Params.expensesMonthly p = Params.expensesMonthly q ->
  Params.incomeGrowthPct p = Params.incomeGrowthPct q ->
  Params.inflationPct p = Params.inflationPct q ->
  Params.years p = Params.years q ->
  map cashColumns (buildRows p) = map cashColumns (buildRows q).
Proof.
  intros Hi He Hg Hf Hy. rewrite !buildRows_emitted.
  replace (iterations q) with (iterations p)
    by (unfold iterations, horizon; now rewrite Hy).
  apply emitted_cashColumns; unfold constants, init; cbn; congruence.
Qed.

Lemma cash_columns_ignore_capital_witness :
  map cashColumns (buildRows (params 0 5589 4000 10 15 5 2 (JNum 1)))
  = map cashColumns (buildRows (params 250000 5589 4000 10 (-3) 5 2 JNull)).
Proof.
  apply cash_columns_ignore_capital; reflexivity.
Defined.

Lemma mul_zero (x : float) :
  x * 0 = 0 \/ x * 0 = (-0) \/ x * 0 = nan.
Proof.
  assert (H : Prim2SF (x * 0) = S754_zero false
              \/ Prim2SF (x * 0) = S754_zero true
              \/ Prim2SF (x * 0) = S754_nan).
  { rewrite FloatAxioms.mul_spec. change (Prim2SF 0) with (S754_zero false).
    unfold SF64mul, SFmul.
    destruct (Prim2SF x) as [s|s| |s m e]; try destruct s; auto. }
  destruct H as [H|[H|H]]; apply Dbl.of_spec in H; auto.
Qed.

(** X12: when the contribution factor resolves to 0, the
    [interestOnContribution] of every row is 0, or NaN once the contribution
    times the rate is no longer finite; nothing else can appear. *)
Theorem zero_factor_no_interest (p : Params.t) (i : nat) (w : YearRow.t) :
  k (constants p) = 0 ->
  nth_error (buildRows p) i = Some w ->
  YearRow.interestOnContribution w = 0
  \/ YearRow.interestOnContribution w = nan.
Proof.
  intros Hk H. row_of H. cbn [YearRow.interestOnContribution row].
  unfold interestOnContribution. rewrite Hk.
  destruct (mul_zero (contribution (running p i) * r (constants p)))
    as [-> | [-> | ->]]; auto.
Qed.

Lemma zero_factor_no_interest_witness :
  exists w,
    nth_error (buildRows (params 0 2000 1000 0 10 0 1 (JStr "half"))) 0 = Some w
    /\ YearRow.contribution w = 12000
    /\ (YearRow.interestOnContribution w = 0
        \/ YearRow.interestOnContribution w = nan).
Proof.
  eexists. split; [reflexivity|]. split; [reflexivity|].
  exact (zero_factor_no_interest (params 0 2000 1000 0 10 0 1 (JStr "half"))
           0 _ eq_refl eq_refl).
Defined.

(** ** Ratios and growth: which cells are numbers *)

Module Cells.

Lemma shr_fexp_nonneg (m e : Z) (l : location) :
  (0 <= m)%Z -> (0 <= shr_m (fst (shr_fexp prec emax m e l)))%Z.
Proof.
  intros Hm. unfold shr_fexp, shr.
  assert (M : shr_m (shr_record_of_loc m l) = m)
    by (destruct l as [|[| |]]; reflexivity).
  destruct (fexp prec emax (Zdigits2 m + e) - e)%Z as [|n|n];
    cbn [fst]; try (rewrite M; exact Hm).
  rewrite Overflow.iter_shr_1 by (rewrite M; exact Hm). rewrite M.
  apply Z.div_pos; [exact Hm|]. apply Z.pow_pos_nonneg; lia.
Qed.

(** Rounding a non-negative mantissa never gives NaN. *)
Lemma round_aux_number (s : bool) (m e : Z) (l : location) :
  (0 <= m)%Z -> number_sf (binary_round_aux prec emax s m e l) = true.
Proof.
  intros Hm. unfold binary_round_aux.
  pose proof (shr_fexp_nonneg m e l Hm) as H1.
  destruct (shr_fexp prec emax m e l) as [mrs' e']. cbn [fst] in H1.
  pose proof (Overflow.round_nearest_even_bound (shr_m mrs')
                (loc_of_shr_record mrs')) as R.
  pose proof (shr_fexp_nonneg
                (round_nearest_even (shr_m mrs') (loc_of_shr_record mrs'))
                e' loc_Exact ltac:(lia)) as H2.
  destruct (shr_fexp prec emax _ e' loc_Exact) as [mrs'' e'']. cbn [fst] in H2.
  destruct (shr_m mrs'') as [|q|q]; [reflexivity| |lia].
  now destruct (Z.leb e'' (emax - prec)).
Qed.

Lemma normalize_number (m e : Z) (sz : bool) :
  number_sf (binary_normalize prec emax m e sz) = true.
Proof.
  destruct m as [|q|q]; cbn [binary_normalize]; [reflexivity| |];
    unfold binary_round; destruct (shl_align _ _ _) as [mz ez];
    apply round_aux_number; lia.
Qed.

Lemma is_nan_spec (x : float) :
  is_nan x = negb (number_sf (Prim2SF x)).
Proof.
  unfold is_nan. rewrite FloatAxioms.eqb_spec. unfold SFeqb.
  destruct (Prim2SF x) as [s|s| |s m e]; try reflexivity.
  - now destruct s.
  - now rewrite Dbl.compare_refl.
Qed.

Lemma not_nan (x : float) :
  number_sf (Prim2SF x) = true -> is_nan x = false.
Proof. intros H. now rewrite is_nan_spec, H. Qed.

Lemma sub_number (a b : spec_float) :
  finite_sf a = true -> finite_sf b = true -> number_sf (SF64sub a b) = true.
Proof.
  destruct a as [sa|sa| |sa ma ea], b as [sb|sb| |sb mb eb];
    try discriminate; intros _ _; unfold SF64sub, SFsub.
  - now destruct sa, sb.
  - reflexivity.
  - reflexivity.
  - apply normalize_number.
Qed.

Lemma mul_number (a : spec_float) (sb : bool) (mb : positive) (eb : Z) :
  number_sf a = true -> number_sf (SF64mul a (S754_finite sb mb eb)) = true.
Proof.
  destruct a as [sa|sa| |sa ma ea]; try discriminate; intros _;
    unfold SF64mul, SFmul; try reflexivity.
  apply round_aux_number. lia.
Qed.

Lemma div_number (a : spec_float) (sb : bool) (mb : positive) (eb : Z) :
  number_sf a = true -> number_sf (SF64div a (S754_finite sb mb eb)) = true.
Proof.
  destruct a as [sa|sa| |sa ma ea]; try discriminate; intros _;
    unfold SF64div, SFdiv; try reflexivity.
  unfold SFdiv_core_binary.
  set (m' := match (ea - eb - _)%Z with
             | 0%Z => Z.pos ma
             | Z.pos _ => Z.shiftl (Z.pos ma) _
             | Z.neg _ => 0%Z
             end).
  assert (Hm' : (0 <= m')%Z).
  { subst m'. destruct (ea - eb - _)%Z; try lia.
    apply Z.shiftl_nonneg. lia. }
  pose proof (Z.div_eucl_eq m' (Z.pos mb) ltac:(lia)) as Q.
  pose proof (Z.mod_pos_bound m' (Z.pos mb) ltac:(lia)) as R.
  unfold Z.modulo in R.
  destruct (Z.div_eucl m' (Z.pos mb)) as [q r].
  apply round_aux_number. nia.
Qed.

Lemma round_number (y : float) :
  number_sf (Prim2SF y) = true -> number_sf (Prim2SF (Js.round y)) = true.
Proof.
  intros Hy. unfold Js.round.
  destruct (Prim2SF y) as [s|s| |s m e] eqn:E; try (rewrite E; exact Hy).
  destruct (0 <=? e)%Z; [rewrite E; exact Hy|].
  destruct (Z.shiftl (Js.signed s m + Z.shiftl 1 (- e - 1)) e) as [|q|q].
  - now destruct s.
  - cbn [Z.eqb Js.of_int]. rewrite FloatAxioms.of_uint63_spec.
    apply normalize_number.
  - cbn [Z.eqb Js.of_int]. rewrite FloatAxioms.opp_spec, FloatAxioms.of_uint63_spec.
    pose proof (normalize_number (Uint63.to_Z (of_Z (- Z.neg q))) 0 false) as N.
    now destruct (binary_normalize _ _ _ _ _).
Qed.

Lemma roundPct_number (x : float) :
  number_sf (Prim2SF x) = true -> number_sf (Prim2SF (roundPct x)) = true.
Proof.
  intros Hx. unfold roundPct. rewrite FloatAxioms.div_spec.
  change (Prim2SF 100) with (S754_finite false 7036874417766400 (-46)).
  apply div_number, round_number. rewrite FloatAxioms.mul_spec.
  change (Prim2SF 100) with (S754_finite false 7036874417766400 (-46)).
  now apply mul_number.
Qed.

(** A finite double above 0. *)
Lemma positive_finite_spec (b : float) :
  (0 <? b) = true -> Js.isFinite b = true ->
  exists m e, Prim2SF b = S754_finite false m e.
Proof.
  rewrite FloatAxioms.ltb_spec, Overflow.isFinite_spec.
  change (Prim2SF 0) with (S754_zero false).
  destruct (Prim2SF b) as [s|s| |s m e]; try discriminate.
  destruct s; [discriminate|]. intros _ _. now exists m, e.
Qed.

(** [(a - b) / c * 100] and [a / c * 100] for finite [a], [b] and a finite
    [c > 0] are not NaN. *)
Lemma quotient_number (a c : float) :
  number_sf (Prim2SF a) = true -> (0 <? c) = true -> Js.isFinite c = true ->
  number_sf (Prim2SF (a / c * 100)) = true.
Proof.
  intros Ha Hc Fc. destruct (positive_finite_spec c Hc Fc) as [m [e E]].
  rewrite FloatAxioms.mul_spec, FloatAxioms.div_spec, E.
  change (Prim2SF 100) with (S754_finite false 7036874417766400 (-46)).
  now apply mul_number, div_number.
Qed.

Lemma finite_number (f : spec_float) : finite_sf f = true -> number_sf f = true.
Proof. now destruct f. Qed.

(** What is neither zero nor finite stays so through [roundPct]. *)
Lemma roundPct_nonfinite (x : float) :
  nonfinite_sf (Prim2SF x) = true -> Js.isFinite (roundPct x) = false.
Proof.
  intros Hx. unfold roundPct.
  rewrite Overflow.isFinite_spec, FloatAxioms.div_spec.
  change (Prim2SF 100) with (S754_finite false 7036874417766400 (-46)).
  assert (Hy : nonfinite_sf (Prim2SF (x * 100)) = true).
  { rewrite FloatAxioms.mul_spec.
    change (Prim2SF 100) with (S754_finite false 7036874417766400 (-46)).
    destruct (Prim2SF x) as [s|s| |s m e]; try discriminate; reflexivity. }
  revert Hy. generalize (x * 100) as y. intros y Hy. unfold Js.round.
  destruct (Prim2SF y) as [s|s| |s m e] eqn:E; try discriminate;
    rewrite E; reflexivity.
Qed.

(** Dividing by a zero gives an infinity or NaN. *)
Lemma div_by_zero_nonfinite (a z : float) :
  (z =? 0) = true -> nonfinite_sf (Prim2SF (a / z * 100)) = true.
Proof.
  rewrite FloatAxioms.eqb_spec. change (Prim2SF 0) with (S754_zero false).
  intros Hz. rewrite FloatAxioms.mul_spec, FloatAxioms.div_spec.
  change (Prim2SF 100) with (S754_finite false 7036874417766400 (-46)).
  destruct (Prim2SF z) as [sz|sz| |sz mz ez]; try discriminate;
    try (destruct sz; discriminate).
  destruct (Prim2SF a) as [s|s| |s m e]; reflexivity.
Qed.

End Cells.

(** X13: for a row whose numeric fields are finite, the three ratios of
    the ratio table are never NaN (each division is guarded by its
    denominator being positive), and a ratio whose denominator is not
    positive is exactly 0. *)
Theorem ratios_are_numbers (w : YearRow.t) :
  forallb Js.isFinite (numeric_fields w) = true ->
  (exists s g x,
      ratiosLine w = [JNum (YearRow.year w); JNum s; JNum g; JNum x]
      /\ is_nan s = false /\ is_nan g = false /\ is_nan x = false)
  /\ ((0 <? YearRow.incomeMonthly w) = false ->
      roundPct (savingsRate w) = 0 /\ roundPct (expenseRatio w) = 0)
  /\ ((0 <? YearRow.capitalStart w) = false -> roundPct (growthRate w) = 0).
Proof.
  unfold numeric_fields. cbn [forallb]. rewrite !andb_true_iff.
  intros [Fi [Fe [Fd [_ [Fs [_ [_ [Fc _]]]]]]]].
  rewrite Overflow.isFinite_spec in Fe, Fd, Fc.
  split; [|split].
  - eexists; eexists; eexists. split; [reflexivity|].
    repeat split; apply Cells.not_nan, Cells.roundPct_number.
    + unfold savingsRate.
      destruct (0 <? YearRow.incomeMonthly w) eqn:P; [|reflexivity].
      apply Cells.quotient_number; auto using Cells.finite_number.
    + unfold growthRate.
      destruct (0 <? YearRow.capitalStart w) eqn:P; [|reflexivity].
      apply Cells.quotient_number; auto.
      rewrite FloatAxioms.sub_spec. apply Cells.sub_number; auto.
      now rewrite <- Overflow.isFinite_spec.
    + unfold expenseRatio.
      destruct (0 <? YearRow.incomeMonthly w) eqn:P; [|reflexivity].
      apply Cells.quotient_number; auto using Cells.finite_number.
  - intros P. unfold savingsRate, expenseRatio. rewrite P. split; reflexivity.
  - intros P. unfold growthRate. now rewrite P.
Qed.

Lemma ratios_are_numbers_witness :
  ratiosLine zero_row = [JNum 1; JNum 0; JNum 0; JNum 0]
  /\ (roundPct (savingsRate zero_row) = 0 /\ roundPct (expenseRatio zero_row) = 0)
  /\ roundPct (growthRate zero_row) = 0.
Proof.
  destruct (ratios_are_numbers zero_row eq_refl) as [_ [A B]].
  split; [reflexivity|]. split; [exact (A eq_refl) | exact (B eq_refl)].
Defined.

Lemma nth_error_indexed {A : Type} (l : list A) :
  forall (b j : nat) (w : A),
    nth_error l j = Some w ->
    nth_error (combine (seq b (List.length l)) l) j = Some ((b + j)%nat, w).
Proof.
  induction l as [|a l IH]; intros b j w H; [now destruct j|].
  destruct j as [|j]; simpl in *.
  - injection H as ->. now rewrite Nat.add_0_r.
  - rewrite (IH (S b) j w H). now rewrite Nat.add_succ_r.
Qed.

(** X14: the growth view divides by the previous year's [capitalEnd]
    without a guard: in the line of a row whose predecessor ended at 0 (the
    floor), the capital growth is NaN or an infinity, never a finite number;
    the first line holds 0, 0, 0. *)
Theorem growth_after_zero_capital (s : refs) (rows : list YearRow.t)
    (i : nat) (prev cur : YearRow.t) :
  performanceMetric s = "growth"%string ->
  nth_error rows i = Some prev ->
  nth_error rows (S i) = Some cur ->
  (YearRow.capitalEnd prev =? 0) = true ->
  (exists g ig eg,
      nth_error (preparePerformanceData s rows) (S (S i))
      = Some [JNum (YearRow.year cur); JNum g; JNum ig; JNum eg]
      /\ Js.isFinite g = false)
  /\ exists first,
      nth_error rows 0 = Some first
      /\ nth_error (preparePerformanceData s rows) 1
         = Some [JNum (YearRow.year first); JNum 0; JNum 0; JNum 0].
Proof.
  intros M Hp Hc Z. unfold preparePerformanceData. rewrite M.
  cbn [String.eqb Ascii.eqb Bool.eqb]. rewrite forEach_push_map. cbn [app].
  set (lines := map (fun ir => growthLine rows (fst ir) (snd ir)) (indexed rows)).
  change (nth_error (?h :: lines) (S (S i))) with (nth_error lines (S i)).
  change (nth_error (?h :: lines) 1) with (nth_error lines 0).
  subst lines.
  assert (I0 : forall j w, nth_error rows j = Some w ->
                           nth_error (indexed rows) j = Some (j, w))
    by (intros j w H; exact (nth_error_indexed rows 0 j w H)).
  split.
  - rewrite nth_error_map, (I0 _ _ Hc). cbn [option_map fst snd growthLine].
    rewrite (nth_error_nth _ _ cur Hp).
    eexists; eexists; eexists. split; [reflexivity|].
    apply Cells.roundPct_nonfinite, Cells.div_by_zero_nonfinite, Z.
  - destruct rows as [|first rest]; [now destruct i|].
    exists first. split; reflexivity.
Qed.

Lemma growth_after_zero_capital_witness :
  let s := mkRefs "capitalEnd" false ["capitalEnd"%string] "growth" (JNum 1) in
  let rows := buildRows (params 0 0 1000 0 15 5 2 (JNum 0.5)) in
  map YearRow.capitalEnd rows = [0; 0]
  /\ preparePerformanceData s rows
     = [ [JStr "Year"; JStr "Capital Growth"; JStr "Income Growth";
          JStr "Expense Growth"];
         [JNum 1; JNum 0; JNum 0; JNum 0];
         [JNum 2; JNum nan; JNum nan; JNum 5] ]
  /\ Js.isFinite nan = false.
Proof.
  cbn zeta. split; [reflexivity|]. split; [reflexivity|].
  destruct (growth_after_zero_capital
              (mkRefs "capitalEnd" false ["capitalEnd"%string] "growth" (JNum 1))
              (buildRows (params 0 0 1000 0 15 5 2 (JNum 0.5)))
              0 _ _ eq_refl eq_refl eq_refl eq_refl) as [[g [ig [eg [E F]]]] _].
  injection E as <- _ _. exact F.
Defined.

(** ** The CSV export *)

Lemma lacks_app (c : ascii) (a b : string) :
  lacks c (a ++ b) = lacks c a && lacks c b.
Proof.
  induction a as [|x a IH]; simpl; [reflexivity|].
  now rewrite IH, andb_assoc.
Qed.

Lemma lacks_join (c : ascii) (sep : string) (l : list string) :
  lacks c sep = true -> forallb (lacks c) l = true ->
  lacks c (Js2.join sep l) = true.
Proof.
  intros Hs. induction l as [|s l IH]; [reflexivity|].
  cbn [forallb]. rewrite andb_true_iff. intros [H1 H2].
  destruct l as [|s' l]; [exact H1|].
  change (Js2.join sep (s :: s' :: l))
    with (s ++ sep ++ Js2.join sep (s' :: l))%string.
  now rewrite !lacks_app, H1, Hs, IH.
Qed.

Lemma split_from_lacks (sep : ascii) (s : string) :
  forall cur,
    lacks sep s = true ->
    Js2.split_from sep cur s
    = [string_of_list_ascii (rev cur ++ list_ascii_of_string s)].
Proof.
  induction s as [|x s IH]; intros cur H; simpl in *.
  - now rewrite app_nil_r.
  - apply andb_true_iff in H. destruct H as [Hx Hs].
    destruct (Ascii.eqb x sep); [discriminate|].
    rewrite IH by exact Hs. cbn [rev]. now rewrite <- app_assoc.
Qed.

Lemma split_from_app (sep : ascii) (s rest : string) :
  forall cur,
    lacks sep s = true ->
    Js2.split_from sep cur (s ++ String sep rest)
    = string_of_list_ascii (rev cur ++ list_ascii_of_string s)
      :: Js2.split_from sep [] rest.
Proof.
  induction s as [|x s IH]; intros cur H; simpl in *.
  - rewrite Ascii.eqb_refl. now rewrite app_nil_r.
  - apply andb_true_iff in H. destruct H as [Hx Hs].
    destruct (Ascii.eqb x sep); [discriminate|].
    rewrite IH by exact Hs. cbn [rev]. now rewrite <- app_assoc.
Qed.

(** Splitting what was joined gives the pieces back, when there is a piece
    and no piece holds the separator. *)
Lemma split_join (sep : ascii) (l : list string) :
  l <> [] -> forallb (lacks sep) l = true ->
  Js2.split sep (Js2.join (String sep EmptyString) l) = l.
Proof.
  unfold Js2.split. induction l as [|s l IH]; [congruence|]. intros _.
  cbn [forallb]. rewrite andb_true_iff. intros [H1 H2].
  destruct l as [|s' l].
  - cbn [Js2.join]. rewrite split_from_lacks by exact H1.
    cbn [rev app]. now rewrite string_of_list_ascii_of_string.
  - change (Js2.join (String sep EmptyString) (s :: s' :: l))
      with (s ++ String sep (Js2.join (String sep EmptyString) (s' :: l)))%string.
    rewrite split_from_app by exact H1. cbn [rev app].
    rewrite string_of_list_ascii_of_string. f_equal.
    apply IH; [discriminate | exact H2].
Qed.

(** X10: the CSV text can be read back.  Provided the text of a number
    holds no comma and no line feed, splitting the blob at line feeds gives
    the header line and one line per row, and splitting a line at commas
    gives its nine cells (the nine column names for the header). *)
Theorem csv_reads_back (toString : float -> string)
    (rows : list YearRow.t) :
  (forall x, lacks "," (toString x) = true) ->
  (forall x, lacks "010" (toString x) = true) ->
  Js2.split "010" (csvText toString rows) = csvLines toString rows
  /\ List.length (csvLines toString rows) = S (List.length rows)
  /\ Js2.split "," (hd EmptyString (csvLines toString rows)) = csvHeader
  /\ forall r, In r rows ->
       Js2.split "," (csvLine toString r)
       = map toString
           [ YearRow.year r; YearRow.incomeMonthly r; YearRow.expensesMonthly r;
             YearRow.deltaMonthly r; YearRow.contribution r;
             YearRow.capitalStart r; YearRow.interestOnStart r;
             YearRow.interestOnContribution r; YearRow.capitalEnd r ].
Proof.
  intros Hc Hn. split; [|split; [|split]].
  - unfold csvText. apply split_join; [discriminate|].
    unfold csvLines. cbn [app forallb]. apply andb_true_iff. split.
    + reflexivity.
    + apply forallb_forall. intros line [r [<- _]]%in_map_iff.
      unfold csvLine. apply lacks_join; [reflexivity|].
      apply forallb_forall. intros s [x [<- _]]%in_map_iff. apply Hn.
  - unfold csvLines. cbn [app List.length]. now rewrite length_map.
  - reflexivity.
  - intros r _. unfold csvLine. apply split_join; [discriminate|].
    apply forallb_forall. intros s [x [<- _]]%in_map_iff. apply Hc.
Qed.

(** An instance with a stand-in for the text of a number. *)
Lemma csv_reads_back_witness :
  let toString := fun x : float => if x =? 1 then "1"%string else "0"%string in
  Js2.split "010" (csvText toString [zero_row])
  = [ "Year,Monthly Income,Monthly Expenses,Delta (monthly),Contribution (annual),Capital last year,% on last year capital,% on current-year contributions,Final capital";
      "1,0,0,0,0,0,0,0,0" ]%string.
Proof.
  cbn zeta.
  refine (proj1 (csv_reads_back
                   (fun x : float => if x =? 1 then "1"%string else "0"%string)
                   [zero_row] _ _));
    intros x; destruct (x =? 1); reflexivity.
Defined.
